(** * image-converter-api: a shallow embedding of [main.py]

    The service has three HTTP handlers ([/resize], [/crop-square], [/crop])
    wrapping calls into the Pillow imaging library.  The handlers are
    embedded in a small state-and-exception monad (operational log plus the
    sequence of outside calls); Pillow is an interface with its documented
    contract; Python's float arithmetic is IEEE binary64, taken from the
    Standard Library's executable [SpecFloat]. *)

From Stdlib Require Import ZArith String List Bool Lia.
From Stdlib Require Import SpecFloat.
Import ListNotations.

Local Open Scope string_scope.
Local Open Scope list_scope.
Local Open Scope Z_scope.

(** ** Python values *)

Definition bytes := list Byte.byte.

(** The outcome of a Python expression that may raise: the value, or the
    text [str(e)] of the exception. *)
Inductive result (A : Type) : Type :=
| Ok (a : A)
| Raise (msg : string).
Arguments Ok {A} a.
Arguments Raise {A} msg.

Definition result_bind {A B} (r : result A) (k : A -> result B) : result B :=
  match r with
  | Ok a => k a
  | Raise msg => Raise msg
  end.

(** ** Python floats (IEEE binary64) *)

Module PyFloat.

Definition prec : Z := 53.
Definition emax : Z := 1024.

Definition float := spec_float.

(** An integer as an unrounded binary number [z * 2^0]. *)
Definition raw (z : Z) : float :=
  match z with
  | Z0 => S754_zero false
  | Zpos p => S754_finite false p 0
  | Zneg p => S754_finite true p 0
  end.

(** [float(z)], as the implicit conversion of [int * float] does it:
    round to nearest even, [OverflowError] beyond the largest float. *)
Definition of_int (z : Z) : result float :=
  match binary_normalize prec emax z 0 false with
  | S754_infinity _ => Raise "int too large to convert to float"
  | f => Ok f
  end.

(** [a / b] on two ints: the correctly rounded quotient. *)
Definition true_div (a b : Z) : result float :=
  if b =? 0 then Raise "division by zero"
  else
    match SFdiv prec emax (raw a) (raw b) with
    | S754_infinity _ => Raise "integer division result too large for a float"
    | f => Ok f
    end.

(** [n * x] with [n] an int and [x] a float. *)
Definition int_mul (n : Z) (x : float) : result float :=
  result_bind (of_int n) (fun fn => Ok (SFmul prec emax fn x)).

(** [int(x)]: truncation toward zero. *)
Definition to_int (x : float) : result Z :=
  match x with
  | S754_zero _ => Ok 0
  | S754_infinity _ => Raise "cannot convert float infinity to integer"
  | S754_nan => Raise "cannot convert float NaN to integer"
  | S754_finite s m e =>
      let a := if 0 <=? e then Zpos m * 2 ^ e else Zpos m / 2 ^ (- e) in
      Ok (if s then - a else a)
  end.

End PyFloat.

(** ** The dimension arithmetic of [resize_in_memory] (lines 39-41) *)

Definition resize_dims (size : Z * Z) (max_width : Z) : result (Z * Z) :=
  result_bind (PyFloat.true_div (snd size) (fst size)) (fun aspect_ratio =>
  let new_width := Z.min max_width (fst size) in
  result_bind (PyFloat.int_mul new_width aspect_ratio) (fun product =>
  result_bind (PyFloat.to_int product) (fun new_height =>
  Ok (new_width, new_height)))).


(** ** The Pillow interface

    [PIL.Image] is an outside library: its image type and the methods the
    handlers call are the fields of a class, and what its documentation
    promises about them is [PillowContract] below. *)

Inductive pynum : Type :=
| PyInt (z : Z)
| PyFloatNum (x : PyFloat.float).

Definition box : Type := pynum * pynum * pynum * pynum.
Definition color : Type := Z * Z * Z.

Inductive Resampling : Type :=
| NEAREST | BOX | BILINEAR | HAMMING | BICUBIC | LANCZOS.

Class Pillow : Type := {
  Image : Type;
  Image_mode : Image -> string;
  Image_size : Image -> Z * Z;
  Image_open : bytes -> result Image;
  Image_new : string -> Z * Z -> color -> Image;
  Image_getchannel : Image -> string -> result Image;
  (* [background.paste(im, mask=mask)]: the background after the call *)
  Image_paste : Image -> Image -> Image -> result Image;
  Image_resize : Image -> Z * Z -> Resampling -> result Image;
  Image_crop : Image -> box -> result Image;
  (* [im.save(buffer, format=, quality=, optimize=)]: the buffer's bytes *)
  Image_save : Image -> string -> Z -> bool -> result bytes
}.

Class PillowContract (P : Pillow) : Prop := {
  size_nonneg : forall im,
    0 <= fst (Image_size im) /\ 0 <= snd (Image_size im);
  new_mode : forall m s c, Image_mode (Image_new m s c) = m;
  new_size : forall m s c,
    0 <= fst s -> 0 <= snd s -> Image_size (Image_new m s c) = s;
  (* a paste that succeeds leaves the background's mode and size *)
  paste_keeps : forall bg im mask bg',
    Image_paste bg im mask = Ok bg' ->
    Image_mode bg' = Image_mode bg /\ Image_size bg' = Image_size bg;
  (* "height and width must be > 0", unless the size is the image's own *)
  resize_size : forall im s rs r,
    Image_resize im s rs = Ok r ->
    Image_size r = s /\ ((1 <= fst s /\ 1 <= snd s) \/ s = Image_size im);
  crop_size : forall im l t r b c,
    Image_crop im (PyInt l, PyInt t, PyInt r, PyInt b) = Ok c ->
    Image_size c = (r - l, b - t)
}.

(** ** The handlers' effects *)

Inductive event : Type :=
| EvRead
| EvOpen (data : bytes)
| EvNew (m : string) (s : Z * Z) (c : color)
| EvGetchannel (band : string)
| EvPaste
| EvResize (s : Z * Z) (rs : Resampling)
| EvCrop (b : box)
| EvSave (format : string) (quality : Z) (optimize : bool).

(** What a request leaves behind: the lines given to [logging.error] and
    the outside calls made, both in the order they happened. *)
Record World : Type := mkWorld {
  log : list string;
  calls : list event
}.

Inductive outcome (E A : Type) : Type :=
| Returns (a : A)
| Raises (e : E).
Arguments Returns {E A} a.
Arguments Raises {E A} e.

Definition M (E A : Type) : Type := World -> outcome E A * World.

Definition ret {E A} (a : A) : M E A := fun w => (Returns a, w).

Definition bind {E A B} (m : M E A) (k : A -> M E B) : M E B :=
  fun w =>
    match m w with
    | (Returns a, w') => k a w'
    | (Raises e, w') => (Raises e, w')
    end.

Definition raise {E A} (e : E) : M E A := fun w => (Raises e, w).

(** [try: m  except Exception as e: h e] *)
Definition try_except {E E' A} (m : M E A) (h : E -> M E' A) : M E' A :=
  fun w =>
    match m w with
    | (Returns a, w') => (Returns a, w')
    | (Raises e, w') => h e w'
    end.

Definition emit {E} (ev : event) : M E unit :=
  fun w => (Returns tt, mkWorld (log w) (calls w ++ [ev])).

Definition logging_error {E} (msg : string) : M E unit :=
  fun w => (Returns tt, mkWorld (log w ++ [msg]) (calls w)).

Declare Scope py_scope.
Delimit Scope py_scope with py.
Notation "x <- m ;; k" := (bind m (fun x => k))
  (at level 61, m at next level, right associativity) : py_scope.
Notation "m ;;; k" := (bind m (fun _ => k))
  (at level 61, right associativity) : py_scope.
Local Open Scope py_scope.

(** A call into the library: noted, then its value or its exception. *)
Definition pil {A} (ev : event) (r : result A) : M string A :=
  emit ev ;;;
  match r with
  | Ok a => ret a
  | Raise msg => raise msg
  end.

Definition lift {A} (r : result A) : M string A :=
  match r with
  | Ok a => ret a
  | Raise msg => raise msg
  end.

Record UploadFile : Type := mkUpload {
  content_type : option string;
  body : bytes
}.

Record HTTPException : Type := mkHTTPException {
  status_code : Z;
  detail : string
}.

Record Response : Type := mkResponse {
  content : bytes;
  media_type : string
}.

Definition read {E} (file : UploadFile) : M E bytes :=
  emit EvRead ;;; ret (body file).

(** [file.content_type is None or not file.content_type.startswith("image/")] *)
Definition not_an_image (file : UploadFile) : bool :=
  match content_type file with
  | None => true
  | Some ct => negb (String.prefix "image/" ct)
  end.

Definition mode_in (m : string) (ms : list string) : bool :=
  existsb (String.eqb m) ms.

Definition default_max_width : Z := 800.
Definition default_quality : Z := 85.
Definition default_output_format : string := "WEBP".

(** Lines 99-103: the box of [crop_square]. *)
Definition square_box (size : Z * Z) : Z * Z * Z * Z :=
  let crop_size := Z.min (fst size) (snd size) in
  let left := (fst size - crop_size) / 2 in
  let top := (snd size - crop_size) / 2 in
  let right := left + crop_size in
  let bottom := top + crop_size in
  (left, top, right, bottom).

Definition int_box (b : Z * Z * Z * Z) : box :=
  let '(l, t, r, b) := b in (PyInt l, PyInt t, PyInt r, PyInt b).

Definition float_box
  (b : PyFloat.float * PyFloat.float * PyFloat.float * PyFloat.float) : box :=
  let '(l, t, r, b) := b in
  (PyFloatNum l, PyFloatNum t, PyFloatNum r, PyFloatNum b).

Section Handlers.

Context {P : Pillow}.

(** Lines 33-36 (and 93-96, 133-136): "Convert to RGB if needed". *)
Definition flatten_alpha (img : Image) : M string Image :=
  if mode_in (Image_mode img) ["RGBA"; "LA"] then
    emit (EvNew "RGB" (Image_size img) (255, 255, 255)) ;;;
    let background := Image_new "RGB" (Image_size img) (255, 255, 255) in
    alpha <- pil (EvGetchannel "A") (Image_getchannel img "A") ;;
    pil EvPaste (Image_paste background img alpha)
  else ret img.

Definition resize_in_memory (image_data : bytes) (max_width quality : Z)
  (output_format : string) : M HTTPException bytes :=
  try_except
    (img <- pil (EvOpen image_data) (Image_open image_data) ;;
     img <- flatten_alpha img ;;
     dims <- lift (resize_dims (Image_size img) max_width) ;;
     resized_img <- pil (EvResize dims LANCZOS)
                        (Image_resize img dims LANCZOS) ;;
     pil (EvSave output_format quality true)
         (Image_save resized_img output_format quality true))
    (fun e =>
       logging_error ("Image processing failed: " ++ e)%string ;;;
       raise (mkHTTPException 400 e)).

Definition resize_image (file : UploadFile) (max_width quality : Z)
  : M HTTPException (option Response) :=
  if not_an_image file then
    raise (mkHTTPException 400 "File must be an image")
  else
    contents <- read file ;;
    processed_image <-
      resize_in_memory contents max_width quality default_output_format ;;
    ret (Some (mkResponse processed_image "image/webp")).

Definition crop_square (file : UploadFile) (quality : Z)
  : M HTTPException (option Response) :=
  if not_an_image file then
    raise (mkHTTPException 400 "File must be an image")
  else
    try_except
      (contents <- read file ;;
       img <- pil (EvOpen contents) (Image_open contents) ;;
       img <- flatten_alpha img ;;
       let b := int_box (square_box (Image_size img)) in
       cropped <- pil (EvCrop b) (Image_crop img b) ;;
       output <- pil (EvSave "WEBP" quality true)
                     (Image_save cropped "WEBP" quality true) ;;
       ret (Some (mkResponse output "image/webp")))
      (fun e =>
         logging_error ("Image processing failed: " ++ e)%string ;;;
         raise (mkHTTPException 400 e)).

(** The [try] block of [crop] ends after [save]; the function then falls
    off its end, which in Python returns [None]. *)
Definition crop (file : UploadFile)
  (bx : PyFloat.float * PyFloat.float * PyFloat.float * PyFloat.float)
  (quality : Z) : M HTTPException (option Response) :=
  if not_an_image file then
    raise (mkHTTPException 400 "File must be an image")
  else
    try_except
      (contents <- read file ;;
       img <- pil (EvOpen contents) (Image_open contents) ;;
       img <- flatten_alpha img ;;
       cropped <- pil (EvCrop (float_box bx)) (Image_crop img (float_box bx)) ;;
       _ <- pil (EvSave "WEBP" quality true)
                (Image_save cropped "WEBP" quality true) ;;
       ret None)
      (fun exc => raise (mkHTTPException 400 exc)).

End Handlers.

(** ** A reference instance of the interface: images as headers

    Enough of Pillow to run the handlers on concrete uploads: an image is
    its mode and its size; an upload is five bytes, a mode tag and two
    big-endian 16-bit dimensions; anything else does not decode. *)

Module HeaderImage.

Record header : Type := mkHeader {
  h_mode : string;
  h_width : N;
  h_height : N
}.

Definition h_size (im : header) : Z * Z :=
  (Z.of_N (h_width im), Z.of_N (h_height im)).

Definition mode_of_tag (b : Byte.byte) : option string :=
  match Byte.to_N b with
  | 1%N => Some "RGB"
  | 2%N => Some "RGBA"
  | 3%N => Some "LA"
  | 4%N => Some "L"
  | 5%N => Some "PA"
  | _ => None
  end.

Definition tag_of_mode (m : string) : Byte.byte :=
  if String.eqb m "RGB" then Byte.x01
  else if String.eqb m "RGBA" then Byte.x02
  else if String.eqb m "LA" then Byte.x03
  else if String.eqb m "L" then Byte.x04
  else if String.eqb m "PA" then Byte.x05
  else Byte.x00.

Definition word16 (hi lo : Byte.byte) : N :=
  (Byte.to_N hi * 256 + Byte.to_N lo)%N.

Definition h_open (data : bytes) : result header :=
  match data with
  | [tag; wh; wl; hh; hl] =>
      match mode_of_tag tag with
      | Some m => Ok (mkHeader m (word16 wh wl) (word16 hh hl))
      | None => Raise "cannot identify image file"
      end
  | _ => Raise "cannot identify image file"
  end.

Definition h_new (m : string) (s : Z * Z) (c : color) : header :=
  mkHeader m (Z.to_N (fst s)) (Z.to_N (snd s)).

Definition h_getchannel (im : header) (band : string) : result header :=
  if String.eqb band "A" && mode_in (h_mode im) ["RGBA"; "LA"; "PA"]
  then Ok (mkHeader "L" (h_width im) (h_height im))
  else Raise "The image has no such channel".

Definition size_eqb (a b : Z * Z) : bool :=
  (fst a =? fst b) && (snd a =? snd b).

Definition h_paste (bg im mask : header) : result header :=
  if size_eqb (h_size mask) (h_size im) then Ok bg
  else Raise "images do not match".

Definition h_resize (im : header) (s : Z * Z) (rs : Resampling)
  : result header :=
  if size_eqb s (h_size im) then Ok im
  else if (1 <=? fst s) && (1 <=? snd s)
  then Ok (mkHeader (h_mode im) (Z.to_N (fst s)) (Z.to_N (snd s)))
  else Raise "height and width must be > 0".

(** [int(round(x))] on a box coordinate: nearest integer, ties to even. *)
Definition round_even (x : PyFloat.float) : result Z :=
  match x with
  | S754_zero _ => Ok 0
  | S754_infinity _ => Raise "cannot convert float infinity to integer"
  | S754_nan => Raise "cannot convert float NaN to integer"
  | S754_finite s m e =>
      let a :=
        if 0 <=? e then Zpos m * 2 ^ e
        else
          let d := 2 ^ (- e) in
          let q := Zpos m / d in
          match 2 * (Zpos m mod d) ?= d with
          | Lt => q
          | Gt => q + 1
          | Eq => if Z.even q then q else q + 1
          end in
      Ok (if s then - a else a)
  end.

Definition coordinate (n : pynum) : result Z :=
  match n with
  | PyInt z => Ok z
  | PyFloatNum x => round_even x
  end.

Definition h_crop (im : header) (b : box) : result header :=
  let '(l, t, r, bt) := b in
  result_bind (coordinate l) (fun x0 =>
  result_bind (coordinate t) (fun y0 =>
  result_bind (coordinate r) (fun x1 =>
  result_bind (coordinate bt) (fun y1 =>
  if x1 <? x0 then Raise "Coordinate 'right' is less than 'left'"
  else if y1 <? y0 then Raise "Coordinate 'lower' is less than 'upper'"
  else Ok (mkHeader (h_mode im) (Z.to_N (x1 - x0)) (Z.to_N (y1 - y0))))))).

Definition byte_of_N (n : N) : Byte.byte :=
  match Byte.of_N (n mod 256) with
  | Some b => b
  | None => Byte.x00
  end.

Definition h_save (im : header) (format : string) (quality : Z)
  (optimize : bool) : result bytes :=
  if mode_in format ["WEBP"; "JPEG"; "PNG"] then
    Ok [tag_of_mode (h_mode im);
        byte_of_N (h_width im / 256); byte_of_N (h_width im);
        byte_of_N (h_height im / 256); byte_of_N (h_height im)]
  else Raise "unknown file extension".

Definition pillow : Pillow := {|
  Image := header;
  Image_mode := h_mode;
  Image_size := h_size;
  Image_open := h_open;
  Image_new := h_new;
  Image_getchannel := h_getchannel;
  Image_paste := h_paste;
  Image_resize := h_resize;
  Image_crop := h_crop;
  Image_save := h_save
|}.

(** Uploads used as concrete inputs. *)
Definition rgb_600x414 : bytes := [Byte.x01; Byte.x02; Byte.x58; Byte.x01; Byte.x9e].
Definition rgb_8x7 : bytes := [Byte.x01; Byte.x00; Byte.x08; Byte.x00; Byte.x07].
Definition rgba_500x300 : bytes := [Byte.x02; Byte.x01; Byte.xf4; Byte.x01; Byte.x2c].
Definition corrupt : bytes := [Byte.xff; Byte.xd8].

Definition png (data : bytes) : UploadFile := mkUpload (Some "image/png") data.

End HeaderImage.

Definition empty_world : World := mkWorld [] [].


(** ** The spec's wording of the new height, for comparison

    "New height = round(new width x aspect ratio) using standard rounding",
    on the exact quotient: the nearest integer, halves upward. *)
Definition round_half_up (num den : Z) : Z := (2 * num + den) / (2 * den).

Definition spec_new_height (size : Z * Z) (new_width : Z) : Z :=
  round_half_up (new_width * snd size) (fst size).

(** The library calls of the alpha-flattening step on an image. *)
Definition flatten_events {P : Pillow} (img : Image) : list event :=
  if mode_in (Image_mode img) ["RGBA"; "LA"]
  then [EvNew "RGB" (Image_size img) (255, 255, 255); EvGetchannel "A"; EvPaste]
  else [].

(** Every encoder call among [evs] asks for the format [fmt]. *)
Definition saves_as (fmt : string) (evs : list event) : Prop :=
  forall f q o, In (EvSave f q o) evs -> f = fmt.

(** The calls of a trace other than those of the flattening step. *)
Definition is_outer (ev : event) : bool :=
  match ev with
  | EvRead | EvOpen _ | EvResize _ _ | EvCrop _ | EvSave _ _ _ => true
  | EvNew _ _ _ | EvGetchannel _ | EvPaste => false
  end.

Definition outer_calls (evs : list event) : list event := filter is_outer evs.

(** The float 1.0. *)
Definition float_one : PyFloat.float :=
  S754_finite false 4503599627370496 (-52).

(** Not below zero: any float but a negative number or minus infinity. *)
Definition float_nonneg (x : PyFloat.float) : bool :=
  match x with
  | S754_finite true _ _ | S754_infinity true => false
  | _ => true
  end.

(** Proof steps for runs of the monad. *)
Ltac run :=
  unfold pil, lift, read, try_except, bind, ret, raise, emit, logging_error
    in *;
  cbn [log calls fst snd] in *.

Ltac inv H := inversion H; subst; clear H.

(** * Properties *)

(** ** The reference instance keeps Pillow's contract *)

Lemma size_eqb_eq (a b : Z * Z) : HeaderImage.size_eqb a b = true <-> a = b.
Proof.
  unfold HeaderImage.size_eqb. destruct a as [a1 a2], b as [b1 b2]; simpl.
  rewrite andb_true_iff, !Z.eqb_eq. split.
  - intros [-> ->]. reflexivity.
  - intros H. inversion H. auto.
Qed.

Lemma mode_in_alpha (m : string) :
  mode_in m ["RGBA"; "LA"] = true <-> m = "RGBA" \/ m = "LA".
Proof.
  unfold mode_in. simpl. rewrite !orb_true_iff, !String.eqb_eq.
  intuition discriminate.
Qed.

Lemma header_contract : PillowContract HeaderImage.pillow.
Proof.
  constructor; simpl.
  - intros im. unfold HeaderImage.h_size; simpl. lia.
  - reflexivity.
  - intros m [sw sh] c Hw Hh. unfold HeaderImage.h_size, HeaderImage.h_new.
    simpl in *. rewrite !Z2N.id by assumption. reflexivity.
  - intros bg im mask bg'. unfold HeaderImage.h_paste.
    destruct (HeaderImage.size_eqb _ _); [|discriminate].
    intros H. inversion H; subst. auto.
  - intros im s rs r. unfold HeaderImage.h_resize.
    destruct (HeaderImage.size_eqb s (HeaderImage.h_size im)) eqn:E.
    + apply size_eqb_eq in E. intros H. inversion H; subst. auto.
    + destruct ((1 <=? fst s) && (1 <=? snd s)) eqn:E1; [|discriminate].
      apply andb_true_iff in E1. destruct E1 as [E1 E2].
      apply Z.leb_le in E1, E2. intros H. inversion H; subst.
      unfold HeaderImage.h_size; simpl. rewrite !Z2N.id by lia.
      destruct s; auto.
  - intros im l t r b c. unfold HeaderImage.h_crop; simpl.
    destruct (r <? l) eqn:E1; [discriminate|].
    destruct (b <? t) eqn:E2; [discriminate|].
    apply Z.ltb_ge in E1, E2. intros H. inversion H; subst.
    unfold HeaderImage.h_size; simpl. rewrite !Z2N.id by lia. reflexivity.
Qed.

(** ** Traces *)

Lemma saves_as_nil (fmt : string) : saves_as fmt [].
Proof. intros f q o []. Qed.

Lemma saves_as_app (fmt : string) (a b : list event) :
  saves_as fmt a -> saves_as fmt b -> saves_as fmt (a ++ b).
Proof.
  intros Ha Hb f q o Hin. apply in_app_or in Hin.
  destruct Hin; [eapply Ha | eapply Hb]; eassumption.
Qed.

Section FlattenFacts.

Context {P : Pillow}.

Lemma flatten_alpha_plain (img : Image) (w : World) :
  mode_in (Image_mode img) ["RGBA"; "LA"] = false ->
  flatten_alpha img w = (Returns img, w).
Proof. intros E. unfold flatten_alpha. rewrite E. reflexivity. Qed.

(** Whatever the library does, flattening writes nothing to the log and
    calls no encoder. *)
Lemma flatten_alpha_trace (img : Image) (w : World) o w' :
  flatten_alpha img w = (o, w') ->
  log w' = log w /\
  exists evs, calls w' = calls w ++ evs /\ forall fmt, saves_as fmt evs.
Proof.
  unfold flatten_alpha.
  destruct (mode_in (Image_mode img) ["RGBA"; "LA"]).
  - run. destruct (Image_getchannel img "A") as [alpha|msg].
    + destruct (Image_paste _ img alpha); intros H; inv H; cbn;
        (split; [reflexivity|]); rewrite <- !app_assoc; eexists;
        (split; [reflexivity|]); intros fmt f q o' Hin; cbn in Hin;
        intuition discriminate.
    + intros H; inv H; cbn. (split; [reflexivity|]).
      rewrite <- !app_assoc; eexists. (split; [reflexivity|]).
      intros fmt f q o' Hin; cbn in Hin. intuition discriminate.
  - intros H; inv H. split; [reflexivity|]. exists []. rewrite app_nil_r.
    split; [reflexivity|]. intros fmt. apply saves_as_nil.
Qed.

Context {C : PillowContract P}.

(** A flattening that returns on an RGBA or LA image returns the white RGB
    background with the image pasted through its alpha channel. *)
Lemma flatten_alpha_alpha (img flat : Image) (w w' : World) :
  mode_in (Image_mode img) ["RGBA"; "LA"] = true ->
  flatten_alpha img w = (Returns flat, w') ->
  exists alpha,
    Image_getchannel img "A" = Ok alpha /\
    Image_paste (Image_new "RGB" (Image_size img) (255, 255, 255)) img alpha
      = Ok flat /\
    Image_mode flat = "RGB" /\
    Image_size flat = Image_size img /\
    w' = mkWorld (log w) (calls w ++ flatten_events img).
Proof.
  intros E. unfold flatten_alpha, flatten_events. rewrite E. run.
  destruct (Image_getchannel img "A") as [alpha|msg]; [|intros H; inv H].
  destruct (Image_paste _ img alpha) as [bg|msg] eqn:Hp; intros H; inv H.
  destruct (size_nonneg img) as [Hw Hh].
  destruct (paste_keeps _ _ _ _ Hp) as [Hm Hs].
  exists alpha. repeat split.
  - exact Hp.
  - rewrite Hm. apply new_mode.
  - rewrite Hs. apply new_size; assumption.
  - cbn. rewrite <- !app_assoc. reflexivity.
Qed.

(** Under the library's contract a flattening that returns has kept the
    size and left a mode the step does not touch again. *)
Lemma flatten_alpha_returns (img : Image) (w : World) flat0 w0 :
  flatten_alpha img w = (Returns flat0, w0) ->
  exists flat,
    flatten_alpha img w
      = (Returns flat, mkWorld (log w) (calls w ++ flatten_events img)) /\
    Image_size flat = Image_size img /\
    mode_in (Image_mode flat) ["RGBA"; "LA"] = false.
Proof.
  intros Hrun.
  destruct (mode_in (Image_mode img) ["RGBA"; "LA"]) eqn:E.
  - destruct (flatten_alpha_alpha img flat0 w w0 E Hrun)
      as (alpha & _ & _ & Hm & Hs & Hw0).
    exists flat0. rewrite Hrun, Hw0. repeat split; try assumption.
    rewrite Hm. reflexivity.
  - exists img. rewrite (flatten_alpha_plain img w E).
    unfold flatten_events. rewrite E, app_nil_r. destruct w; auto.
Qed.

End FlattenFacts.

(** ** The content-type gate *)

Lemma not_an_image_iff (file : UploadFile) :
  not_an_image file = true <->
  content_type file = None \/
  exists ct, content_type file = Some ct /\ String.prefix "image/" ct = false.
Proof.
  unfold not_an_image. destruct (content_type file) as [ct|].
  - rewrite negb_true_iff. split.
    + intros H. right. exists ct. auto.
    + intros [H | (ct' & H & Hp)]; [discriminate | congruence].
  - split; auto.
Qed.

(** C4: an upload whose declared content type is missing or does not start
    with "image/" is answered 400 "File must be an image" by each of the
    three handlers, and the world is left as it was: the body was not read
    and no library call was made. *)
Theorem not_image_rejected_first {P : Pillow} (file : UploadFile)
  (max_width quality : Z)
  (bx : PyFloat.float * PyFloat.float * PyFloat.float * PyFloat.float)
  (w : World) :
  content_type file = None \/
  (exists ct, content_type file = Some ct /\
              String.prefix "image/" ct = false) ->
  resize_image file max_width quality w
    = (Raises (mkHTTPException 400 "File must be an image"), w) /\
  crop_square file quality w
    = (Raises (mkHTTPException 400 "File must be an image"), w) /\
  crop file bx quality w
    = (Raises (mkHTTPException 400 "File must be an image"), w).
Proof.
  intros H. apply not_an_image_iff in H.
  unfold resize_image, crop_square, crop. rewrite H. repeat split.
Qed.

Lemma not_image_rejected_first_witness :
  (content_type (mkUpload (Some "text/plain") HeaderImage.rgb_8x7) = None \/
   exists ct,
     content_type (mkUpload (Some "text/plain") HeaderImage.rgb_8x7) = Some ct /\
     String.prefix "image/" ct = false) /\
  resize_image (P := HeaderImage.pillow)
    (mkUpload (Some "text/plain") HeaderImage.rgb_8x7) 800 85 empty_world
    = (Raises (mkHTTPException 400 "File must be an image"), empty_world).
Proof.
  assert (H : content_type (mkUpload (Some "text/plain") HeaderImage.rgb_8x7)
              = None \/
              exists ct,
                content_type (mkUpload (Some "text/plain") HeaderImage.rgb_8x7)
                  = Some ct /\
                String.prefix "image/" ct = false).
  { right. exists "text/plain". split; reflexivity. }
  split; [exact H|].
  exact (proj1 (not_image_rejected_first (P := HeaderImage.pillow)
                  (mkUpload (Some "text/plain") HeaderImage.rgb_8x7) 800 85
                  (S754_zero false, S754_zero false,
                   S754_zero false, S754_zero false)
                  empty_world H)).
Defined.

(** ** The rectangular crop *)

(** C2: when the upload is an image and decode, flattening, the crop of
    the given box and the WEBP encode all succeed, [crop] has called the
    encoder and obtained its bytes, and returns Python's [None]: no
    response carries them.  More generally [crop] never returns a
    response. *)
Theorem crop_success_returns_nothing {P : Pillow} (file : UploadFile)
  (bx : PyFloat.float * PyFloat.float * PyFloat.float * PyFloat.float)
  (quality : Z) (w w1 : World) (img flat cropped : Image) (encoded : bytes) :
  not_an_image file = false ->
  Image_open (body file) = Ok img ->
  flatten_alpha img (mkWorld (log w) (calls w ++ [EvRead; EvOpen (body file)]))
    = (Returns flat, w1) ->
  Image_crop flat (float_box bx) = Ok cropped ->
  Image_save cropped "WEBP" quality true = Ok encoded ->
  crop file bx quality w
    = (Returns None,
       mkWorld (log w1)
         (calls w1 ++ [EvCrop (float_box bx); EvSave "WEBP" quality true])) /\
  forall r w', crop file bx quality w = (Returns r, w') -> r = None.
Proof.
  intros Hct Hopen Hflat Hcrop Hsave.
  assert (Hrun : crop file bx quality w
    = (Returns None,
       mkWorld (log w1)
         (calls w1 ++ [EvCrop (float_box bx); EvSave "WEBP" quality true]))).
  { unfold crop. rewrite Hct. run. rewrite Hopen. cbn.
    rewrite <- app_assoc. cbn. rewrite Hflat, Hcrop. cbn. rewrite Hsave. cbn.
    rewrite <- app_assoc. reflexivity. }
  split; [exact Hrun|].
  intros r w' H. rewrite Hrun in H. inv H. reflexivity.
Qed.

Lemma crop_success_returns_nothing_witness :
  not_an_image (HeaderImage.png HeaderImage.rgb_8x7) = false /\
  Image_open (Pillow := HeaderImage.pillow)
    (body (HeaderImage.png HeaderImage.rgb_8x7))
    = Ok (HeaderImage.mkHeader "RGB" 8 7) /\
  Image_crop (Pillow := HeaderImage.pillow) (HeaderImage.mkHeader "RGB" 8 7)
    (float_box (S754_zero false, S754_zero false,
                S754_finite false 1 2, S754_finite false 1 1))
    = Ok (HeaderImage.mkHeader "RGB" 4 2) /\
  crop (P := HeaderImage.pillow) (HeaderImage.png HeaderImage.rgb_8x7)
    (S754_zero false, S754_zero false,
     S754_finite false 1 2, S754_finite false 1 1) 85 empty_world
  = (Returns None,
     mkWorld []
       [EvRead; EvOpen HeaderImage.rgb_8x7;
        EvCrop (float_box (S754_zero false, S754_zero false,
                           S754_finite false 1 2, S754_finite false 1 1));
        EvSave "WEBP" 85 true]).
Proof.
  split; [reflexivity|]. split; [reflexivity|]. split; [reflexivity|].
  refine (proj1
    (crop_success_returns_nothing (P := HeaderImage.pillow)
       (HeaderImage.png HeaderImage.rgb_8x7)
       (S754_zero false, S754_zero false,
        S754_finite false 1 2, S754_finite false 1 1) 85 empty_world
       (mkWorld [] [EvRead; EvOpen HeaderImage.rgb_8x7])
       (HeaderImage.mkHeader "RGB" 8 7) (HeaderImage.mkHeader "RGB" 8 7)
       (HeaderImage.mkHeader "RGB" 4 2)
       [Byte.x01; Byte.x00; Byte.x04; Byte.x00; Byte.x02]
       _ _ _ _ _)); reflexivity.
Defined.

(** [crop] on failure: 400 with the exception's text; no line is logged. *)
Lemma crop_log_unchanged {P : Pillow} (file : UploadFile)
  (bx : PyFloat.float * PyFloat.float * PyFloat.float * PyFloat.float)
  (quality : Z) (w : World) o w' :
  crop file bx quality w = (o, w') -> log w' = log w.
Proof.
  unfold crop. destruct (not_an_image file).
  - unfold raise. intros H; inv H. reflexivity.
  - run. destruct (Image_open (body file)) as [img|msg].
    + destruct (flatten_alpha img _) as [[flat|msg] w1] eqn:Hf;
        apply flatten_alpha_trace in Hf; destruct Hf as [Hlog _];
        cbn in Hlog.
      * destruct (Image_crop flat (float_box bx)) as [cropped|msg].
        -- destruct (Image_save cropped "WEBP" quality true);
             intros H; inv H; cbn; assumption.
        -- intros H; inv H; cbn; assumption.
      * intros H; inv H; assumption.
    + intros H; inv H. reflexivity.
Qed.

(** C3, at the [/crop] endpoint: when decoding the upload raises, the
    handler answers 400 with the exception's text but writes nothing to
    the log; no outcome of [crop] ever adds a log line. *)
Theorem crop_failure_not_logged {P : Pillow} (file : UploadFile)
  (bx : PyFloat.float * PyFloat.float * PyFloat.float * PyFloat.float)
  (quality : Z) (w : World) (msg : string) :
  not_an_image file = false ->
  Image_open (body file) = Raise msg ->
  crop file bx quality w
    = (Raises (mkHTTPException 400 msg),
       mkWorld (log w) (calls w ++ [EvRead; EvOpen (body file)])) /\
  forall o w', crop file bx quality w = (o, w') -> log w' = log w.
Proof.
  intros Hct Hopen. split.
  - unfold crop. rewrite Hct. run. rewrite Hopen. cbn.
    rewrite <- app_assoc. reflexivity.
  - intros o w'. apply crop_log_unchanged.
Qed.

Lemma crop_failure_not_logged_witness :
  not_an_image (HeaderImage.png HeaderImage.corrupt) = false /\
  Image_open (Pillow := HeaderImage.pillow)
    (body (HeaderImage.png HeaderImage.corrupt))
    = Raise "cannot identify image file" /\
  crop (P := HeaderImage.pillow) (HeaderImage.png HeaderImage.corrupt)
    (S754_zero false, S754_zero false,
     S754_finite false 1 2, S754_finite false 1 1) 85 empty_world
  = (Raises (mkHTTPException 400 "cannot identify image file"),
     mkWorld [] [EvRead; EvOpen HeaderImage.corrupt]).
Proof.
  split; [reflexivity|]. split; [reflexivity|].
  refine (proj1
    (crop_failure_not_logged (P := HeaderImage.pillow)
       (HeaderImage.png HeaderImage.corrupt)
       (S754_zero false, S754_zero false,
        S754_finite false 1 2, S754_finite false 1 1) 85 empty_world
       "cannot identify image file" _ _)); reflexivity.
Defined.

(** ** The resize pipeline *)

Lemma resize_dims_inv (size : Z * Z) (max_width nw nh : Z) :
  resize_dims size max_width = Ok (nw, nh) ->
  nw = Z.min max_width (fst size) /\
  fst size <> 0 /\
  exists aspect_ratio product,
    PyFloat.true_div (snd size) (fst size) = Ok aspect_ratio /\
    PyFloat.int_mul nw aspect_ratio = Ok product /\
    PyFloat.to_int product = Ok nh.
Proof.
  unfold resize_dims.
  destruct (PyFloat.true_div (snd size) (fst size)) as [a|] eqn:Ha;
    [|discriminate].
  cbn [result_bind].
  destruct (PyFloat.int_mul (Z.min max_width (fst size)) a) as [p|] eqn:Hp;
    [|discriminate].
  cbn [result_bind].
  destruct (PyFloat.to_int p) as [h|] eqn:Hh; [|discriminate].
  cbn [result_bind]. intros H; inv H.
  split; [reflexivity|]. split.
  - intros Hz. unfold PyFloat.true_div in Ha. rewrite Hz in Ha.
    discriminate.
  - exists a, p. auto.
Qed.

Section ResizeFacts.

Context {P : Pillow}.

Lemma resize_in_memory_returns_inv (data : bytes) (max_width quality : Z)
  (fmt : string) (w w' : World) (out : bytes) :
  resize_in_memory data max_width quality fmt w = (Returns out, w') ->
  exists img flat w1 dims resized,
    Image_open data = Ok img /\
    flatten_alpha img (mkWorld (log w) (calls w ++ [EvOpen data]))
      = (Returns flat, w1) /\
    resize_dims (Image_size flat) max_width = Ok dims /\
    Image_resize flat dims LANCZOS = Ok resized /\
    Image_save resized fmt quality true = Ok out /\
    w' = mkWorld (log w1)
           (calls w1 ++ [EvResize dims LANCZOS; EvSave fmt quality true]).
Proof.
  unfold resize_in_memory. run.
  destruct (Image_open data) as [img|msg]; [|intros H; inv H].
  destruct (flatten_alpha img _) as [[flat|msg] w1] eqn:Hf;
    [|intros H; inv H].
  destruct (resize_dims (Image_size flat) max_width) as [dims|msg] eqn:Hd;
    [|intros H; inv H].
  destruct (Image_resize flat dims LANCZOS) as [resized|msg] eqn:Hr;
    [|intros H; inv H].
  destruct (Image_save resized fmt quality true) as [o|msg] eqn:Hs;
    intros H; inv H.
  exists img, flat, w1, dims, resized. repeat split; try assumption.
  cbn. rewrite <- app_assoc. reflexivity.
Qed.

(** Every failure inside [resize_in_memory] is logged and becomes a 400
    carrying the exception's text; every encoder call it makes uses the
    format it was given. *)
Lemma resize_in_memory_trace (data : bytes) (max_width quality : Z)
  (fmt : string) (w w' : World) o :
  resize_in_memory data max_width quality fmt w = (o, w') ->
  (exists evs, calls w' = calls w ++ evs /\ saves_as fmt evs) /\
  match o with
  | Returns _ => log w' = log w
  | Raises e =>
      status_code e = 400 /\
      log w' = log w ++ [("Image processing failed: " ++ detail e)%string]
  end.
Proof.
  unfold resize_in_memory. run.
  destruct (Image_open data) as [img|msg].
  2:{ intros H; inv H; cbn. split; [|auto].
      eexists; split; [reflexivity|]. intros f q o' Hin; cbn in Hin.
      intuition discriminate. }
  destruct (flatten_alpha img _) as [[flat|msg] w1] eqn:Hf;
    apply flatten_alpha_trace in Hf;
    destruct Hf as (Hlog & evs & Hcalls & Hsaves); cbn in Hlog, Hcalls.
  2:{ intros H; inv H; cbn. rewrite Hlog, Hcalls, <- app_assoc.
      split; [|auto]. eexists; split; [reflexivity|].
      apply (saves_as_app fmt [_] evs); [|apply Hsaves].
      intros f q o' Hin; cbn in Hin. intuition discriminate. }
  assert (Hpre : saves_as fmt (EvOpen data :: evs)).
  { apply (saves_as_app fmt [_] evs); [|apply Hsaves].
    intros f q o' Hin; cbn in Hin. intuition discriminate. }
  destruct (resize_dims (Image_size flat) max_width) as [dims|msg].
  2:{ intros H; inv H; cbn. rewrite Hlog, Hcalls, <- app_assoc.
      split; [|auto]. eexists; split; [reflexivity|]. exact Hpre. }
  destruct (Image_resize flat dims LANCZOS) as [resized|msg].
  2:{ intros H; inv H; cbn. rewrite Hlog, Hcalls, <- !app_assoc.
      split; [|auto]. eexists; split; [reflexivity|].
      apply (saves_as_app fmt (_ :: evs) [_]); [exact Hpre|].
      intros f q o' Hin; cbn in Hin. intuition discriminate. }
  assert (Hpost : saves_as fmt
            ((EvOpen data :: evs)
             ++ [EvResize dims LANCZOS; EvSave fmt quality true])).
  { apply saves_as_app; [exact Hpre|].
    intros f q o' Hin; cbn in Hin.
    destruct Hin as [Hin | [Hin | []]]; [discriminate|].
    inversion Hin. reflexivity. }
  destruct (Image_save resized fmt quality true) as [out|msg];
    intros H; inv H; cbn; rewrite Hlog, Hcalls, <- !app_assoc;
    (split; [|auto]); eexists; (split; [reflexivity|]).
    all: exact Hpost.
Qed.

End ResizeFacts.

Section ResizeClaims.

Context {P : Pillow} {C : PillowContract P}.

(** The decoded image, the flattened one and the resized one of a run of
    [resize_in_memory] that returns. *)
Lemma resize_in_memory_returns (data : bytes) (max_width quality : Z)
  (fmt : string) (w w' : World) (out : bytes) :
  resize_in_memory data max_width quality fmt w = (Returns out, w') ->
  exists img flat resized new_height,
    Image_open data = Ok img /\
    Image_size flat = Image_size img /\
    resize_dims (Image_size img) max_width
      = Ok (Z.min max_width (fst (Image_size img)), new_height) /\
    Image_resize flat (Z.min max_width (fst (Image_size img)), new_height)
      LANCZOS = Ok resized /\
    Image_size resized
      = (Z.min max_width (fst (Image_size img)), new_height) /\
    Image_save resized fmt quality true = Ok out.
Proof.
  intros H. apply resize_in_memory_returns_inv in H.
  destruct H as (img & flat & w1 & [nw nh] & resized
                 & Hopen & Hflat & Hdims & Hres & Hsave & _).
  destruct (flatten_alpha_returns img
              (mkWorld (log w) (calls w ++ [EvOpen data])) _ _ Hflat)
    as (flat' & Hflat' & Hsize & _).
  rewrite Hflat in Hflat'. inv Hflat'.
  rewrite Hsize in Hdims.
  pose proof (resize_dims_inv _ _ _ _ Hdims) as (Hnw & _).
  subst nw.
  destruct (resize_size _ _ _ _ Hres) as [Hrs _].
  exists img, flat', resized, nh. repeat split; assumption.
Qed.

(** C5: whenever the resize operation produces its output, the image it
    encoded has width [min(max_width, original width)]; so the width is
    at most [max_width] and at most the original width (no upscaling). *)
Theorem resize_width_is_min (data : bytes) (max_width quality : Z)
  (fmt : string) (w w' : World) (out : bytes) :
  resize_in_memory data max_width quality fmt w = (Returns out, w') ->
  exists img resized,
    Image_open data = Ok img /\
    Image_save resized fmt quality true = Ok out /\
    fst (Image_size resized) = Z.min max_width (fst (Image_size img)) /\
    fst (Image_size resized) <= max_width /\
    fst (Image_size resized) <= fst (Image_size img).
Proof.
  intros H. apply resize_in_memory_returns in H.
  destruct H as (img & flat & resized & nh
                 & Hopen & _ & _ & _ & Hsize & Hsave).
  exists img, resized. rewrite Hsize. cbn [fst]. repeat split; auto; lia.
Qed.

(** C8: a valid image uploaded to [/resize] with [max_width <= 0] is
    answered with a 400. *)
Theorem resize_nonpositive_max_width_400 (file : UploadFile)
  (max_width quality : Z) (w : World) (img : Image) :
  not_an_image file = false ->
  Image_open (body file) = Ok img ->
  max_width <= 0 ->
  exists msg w',
    resize_image file max_width quality w
      = (Raises (mkHTTPException 400 msg), w').
Proof.
  intros Hct Hopen Hmw. unfold resize_image. rewrite Hct.
  unfold read, bind, emit, ret. cbn.
  destruct (resize_in_memory (body file) max_width quality
              default_output_format _) as [[out|e] w'] eqn:Hrun.
  - exfalso. apply resize_in_memory_returns in Hrun.
    destruct Hrun as (img' & flat & resized & nh
                      & Hopen' & Hfs & Hdims & Hres & _ & _).
    rewrite Hopen in Hopen'. inv Hopen'.
    apply resize_dims_inv in Hdims. destruct Hdims as (_ & Hnz & _).
    destruct (size_nonneg img') as [Hw _].
    destruct (resize_size _ _ _ _ Hres) as [_ [[H1 _] | Heq]].
    + cbn [fst] in H1. lia.
    + rewrite Hfs in Heq.
      assert (E : Z.min max_width (fst (Image_size img'))
                  = fst (Image_size img')).
      { rewrite <- Heq at 2. reflexivity. }
      lia.
  - apply resize_in_memory_trace in Hrun. destruct Hrun as [_ [Hs _]].
    destruct e as [sc d]. cbn in Hs. subst sc. exists d, w'. reflexivity.
Qed.

End ResizeClaims.

Lemma resize_width_is_min_witness :
  PillowContract HeaderImage.pillow /\
  resize_in_memory (P := HeaderImage.pillow) HeaderImage.rgb_8x7 2 85 "WEBP"
    empty_world
  = (Returns [Byte.x01; Byte.x00; Byte.x02; Byte.x00; Byte.x01],
     mkWorld [] [EvOpen HeaderImage.rgb_8x7; EvResize (2, 1) LANCZOS;
                 EvSave "WEBP" 85 true]) /\
  exists img resized : HeaderImage.header,
    HeaderImage.h_open HeaderImage.rgb_8x7 = Ok img /\
    HeaderImage.h_save resized "WEBP" 85 true
      = Ok [Byte.x01; Byte.x00; Byte.x02; Byte.x00; Byte.x01] /\
    fst (HeaderImage.h_size resized) = Z.min 2 (fst (HeaderImage.h_size img)) /\
    fst (HeaderImage.h_size resized) <= 2 /\
    fst (HeaderImage.h_size resized) <= fst (HeaderImage.h_size img).
Proof.
  split; [exact header_contract|]. split; [reflexivity|].
  apply (resize_width_is_min (P := HeaderImage.pillow) (C := header_contract)
           HeaderImage.rgb_8x7 2 85 "WEBP" empty_world
           (mkWorld [] [EvOpen HeaderImage.rgb_8x7; EvResize (2, 1) LANCZOS;
                        EvSave "WEBP" 85 true])).
  reflexivity.
Defined.

Lemma resize_nonpositive_max_width_400_witness :
  PillowContract HeaderImage.pillow /\
  not_an_image (HeaderImage.png HeaderImage.rgb_8x7) = false /\
  HeaderImage.h_open (body (HeaderImage.png HeaderImage.rgb_8x7))
    = Ok (HeaderImage.mkHeader "RGB" 8 7) /\
  0 <= 0 /\
  exists msg w',
    resize_image (P := HeaderImage.pillow)
      (HeaderImage.png HeaderImage.rgb_8x7) 0 85 empty_world
    = (Raises (mkHTTPException 400 msg), w').
Proof.
  split; [exact header_contract|]. split; [reflexivity|].
  split; [reflexivity|]. split; [lia|].
  apply (resize_nonpositive_max_width_400 (P := HeaderImage.pillow)
           (C := header_contract)
           (HeaderImage.png HeaderImage.rgb_8x7) 0 85 empty_world
           (HeaderImage.mkHeader "RGB" 8 7)); [reflexivity | reflexivity | lia].
Defined.

(** C1 as the spec words it fails: an 8x7 image resized with
    [max_width = 2] has the exact height 2 * 7 / 8 = 1.75, which rounds to
    2, and the code computes [int(1.75) = 1]. *)
Lemma resize_height_not_rounded :
  resize_dims (8, 7) 2 = Ok (2, 1) /\
  spec_new_height (8, 7) 2 = 2 /\
  ~ (forall size max_width new_width new_height,
       resize_dims size max_width = Ok (new_width, new_height) ->
       new_height = spec_new_height size new_width).
Proof.
  split; [vm_compute; reflexivity|]. split; [vm_compute; reflexivity|].
  intros H. specialize (H (8, 7) 2 2 1). vm_compute in H.
  specialize (H eq_refl). discriminate H.
Qed.



(** C9 at a 600x414 opaque image with [max_width = 800]: the width stays
    600 but [414 / 600] rounds to a float just below 0.69, the product
    with 600 falls just below 414, and [int] gives 413; the handler asks
    Pillow for a 600x413 image.  At a 49x1 image the new height is 0. *)
Theorem resize_same_width_loses_a_row :
  resize_dims (600, 414) 800 = Ok (600, 413) /\
  resize_dims (49, 1) 800 = Ok (49, 0) /\
  resize_image (P := HeaderImage.pillow)
    (HeaderImage.png HeaderImage.rgb_600x414) 800 85 empty_world
  = (Returns (Some (mkResponse
                      [Byte.x01; Byte.x02; Byte.x58; Byte.x01; Byte.x9d]
                      "image/webp")),
     mkWorld [] [EvRead; EvOpen HeaderImage.rgb_600x414;
                 EvResize (600, 413) LANCZOS; EvSave "WEBP" 85 true]).
Proof. repeat split; vm_compute; reflexivity. Qed.

(** ** Alpha flattening *)

(** C6, as the code has it: the step tests the mode against RGBA and LA.
    On such an image it makes a white RGB background of the image's size
    and pastes the image onto it with the image's own alpha channel as the
    mask: when Pillow's [getchannel] and [paste] succeed it returns that
    background, of mode RGB and of the same size; when either raises, the
    exception is the step's.  On an image of any other mode it returns the
    image itself and calls nothing.  Flattening what the step returned is
    a no-op. *)
Theorem flatten_alpha_spec {P : Pillow} {C : PillowContract P}
  (img : Image) (w : World) :
  (Image_mode img = "RGBA" \/ Image_mode img = "LA" ->
   (forall alpha flat,
      Image_getchannel img "A" = Ok alpha ->
      Image_paste (Image_new "RGB" (Image_size img) (255, 255, 255))
        img alpha = Ok flat ->
      flatten_alpha img w
        = (Returns flat,
           mkWorld (log w)
             (calls w ++ [EvNew "RGB" (Image_size img) (255, 255, 255);
                          EvGetchannel "A"; EvPaste])) /\
      Image_mode flat = "RGB" /\
      Image_size flat = Image_size img) /\
   (forall msg,
      Image_getchannel img "A" = Raise msg ->
      flatten_alpha img w
        = (Raises msg,
           mkWorld (log w)
             (calls w ++ [EvNew "RGB" (Image_size img) (255, 255, 255);
                          EvGetchannel "A"]))) /\
   (forall alpha msg,
      Image_getchannel img "A" = Ok alpha ->
      Image_paste (Image_new "RGB" (Image_size img) (255, 255, 255))
        img alpha = Raise msg ->
      flatten_alpha img w
        = (Raises msg,
           mkWorld (log w)
             (calls w ++ [EvNew "RGB" (Image_size img) (255, 255, 255);
                          EvGetchannel "A"; EvPaste])))) /\
  (~ (Image_mode img = "RGBA" \/ Image_mode img = "LA") ->
   flatten_alpha img w = (Returns img, w)) /\
  (forall flat w1,
     flatten_alpha img w = (Returns flat, w1) ->
     flatten_alpha flat w1 = (Returns flat, w1)).
Proof.
  split; [|split].
  - intros Hm. apply mode_in_alpha in Hm. split; [|split].
    + intros alpha flat Ha Hp.
      assert (Hrun : flatten_alpha img w
                = (Returns flat,
                   mkWorld (log w)
                     (calls w ++ [EvNew "RGB" (Image_size img) (255, 255, 255);
                                  EvGetchannel "A"; EvPaste]))).
      { unfold flatten_alpha. rewrite Hm. run. rewrite Ha, Hp. cbn.
        rewrite <- !app_assoc. reflexivity. }
      split; [exact Hrun|].
      destruct (flatten_alpha_alpha img flat w _ Hm Hrun)
        as (_ & _ & _ & Hfm & Hfs & _).
      split; assumption.
    + intros msg Ha. unfold flatten_alpha. rewrite Hm. run. rewrite Ha.
      cbn. rewrite <- !app_assoc. reflexivity.
    + intros alpha msg Ha Hp. unfold flatten_alpha. rewrite Hm. run.
      rewrite Ha, Hp. cbn. rewrite <- !app_assoc. reflexivity.
  - intros Hm. apply flatten_alpha_plain.
    destruct (mode_in (Image_mode img) ["RGBA"; "LA"]) eqn:E;
      [|reflexivity].
    apply mode_in_alpha in E. contradiction.
  - intros flat w1 Hrun.
    destruct (flatten_alpha_returns img w _ _ Hrun)
      as (flat' & Hrun' & _ & Hplain).
    rewrite Hrun in Hrun'. inv Hrun'.
    apply flatten_alpha_plain. exact Hplain.
Qed.

Lemma flatten_alpha_spec_witness :
  PillowContract HeaderImage.pillow /\
  flatten_alpha (P := HeaderImage.pillow)
    (HeaderImage.mkHeader "RGBA" 500 300) empty_world
  = (Returns (HeaderImage.mkHeader "RGB" 500 300),
     mkWorld [] [EvNew "RGB" (500, 300) (255, 255, 255);
                 EvGetchannel "A"; EvPaste]) /\
  flatten_alpha (P := HeaderImage.pillow)
    (HeaderImage.mkHeader "RGB" 500 300)
    (mkWorld [] [EvNew "RGB" (500, 300) (255, 255, 255);
                 EvGetchannel "A"; EvPaste])
  = (Returns (HeaderImage.mkHeader "RGB" 500 300),
     mkWorld [] [EvNew "RGB" (500, 300) (255, 255, 255);
                 EvGetchannel "A"; EvPaste]).
Proof.
  split; [exact header_contract|]. split; [reflexivity|].
  apply (proj2 (proj2 (flatten_alpha_spec (P := HeaderImage.pillow)
                         (C := header_contract)
                         (HeaderImage.mkHeader "RGBA" 500 300) empty_world))).
  reflexivity.
Defined.

(** C6 as the spec words it fails: a palette image with an alpha channel
    (mode PA) has an "A" channel, and the step hands it back as it is, in
    mode PA, without compositing. *)
Lemma flatten_alpha_skips_palette_alpha :
  Image_getchannel (Pillow := HeaderImage.pillow)
    (HeaderImage.mkHeader "PA" 4 4) "A"
    = Ok (HeaderImage.mkHeader "L" 4 4) /\
  flatten_alpha (P := HeaderImage.pillow)
    (HeaderImage.mkHeader "PA" 4 4) empty_world
    = (Returns (HeaderImage.mkHeader "PA" 4 4), empty_world) /\
  Image_mode (Pillow := HeaderImage.pillow) (HeaderImage.mkHeader "PA" 4 4)
    <> "RGB".
Proof.
  split; [reflexivity|]. split; [reflexivity|]. discriminate.
Qed.

(** ** The centre square crop *)

Lemma square_box_spec (width height : Z) :
  let crop_size := Z.min width height in
  let left := (width - crop_size) / 2 in
  let top := (height - crop_size) / 2 in
  square_box (width, height)
    = (left, top, left + crop_size, top + crop_size) /\
  0 <= left /\ 0 <= (width - (left + crop_size)) - left <= 1 /\
  0 <= top /\ 0 <= (height - (top + crop_size)) - top <= 1.
Proof.
  cbv zeta. split; [reflexivity|].
  pose proof (Z.div_mod (width - Z.min width height) 2 ltac:(lia)) as Hw.
  pose proof (Z.mod_pos_bound (width - Z.min width height) 2 ltac:(lia)).
  pose proof (Z.div_mod (height - Z.min width height) 2 ltac:(lia)) as Hh.
  pose proof (Z.mod_pos_bound (height - Z.min width height) 2 ltac:(lia)).
  lia.
Qed.

Section CropSquareFacts.

Context {P : Pillow}.

Lemma crop_square_returns_inv (file : UploadFile) (quality : Z)
  (w w' : World) (r : option Response) :
  crop_square file quality w = (Returns r, w') ->
  exists img flat w1 cropped output,
    Image_open (body file) = Ok img /\
    flatten_alpha img
      (mkWorld (log w) (calls w ++ [EvRead; EvOpen (body file)]))
      = (Returns flat, w1) /\
    Image_crop flat (int_box (square_box (Image_size flat))) = Ok cropped /\
    Image_save cropped "WEBP" quality true = Ok output /\
    r = Some (mkResponse output "image/webp").
Proof.
  unfold crop_square. destruct (not_an_image file).
  { unfold raise. intros H; inv H. }
  run. destruct (Image_open (body file)) as [img|msg]; [|intros H; inv H].
  cbn. rewrite <- app_assoc. cbn.
  destruct (flatten_alpha img _) as [[flat|msg] w1] eqn:Hf;
    [|intros H; inv H].
  destruct (Image_crop flat _) as [cropped|msg] eqn:Hc; [|intros H; inv H].
  destruct (Image_save cropped "WEBP" quality true) as [output|msg] eqn:Hs;
    intros H; inv H.
  exists img, flat, w1, cropped, output. repeat split; assumption.
Qed.

(** Like [resize_in_memory], [crop_square] logs its failures. *)
Lemma crop_square_failure_logged (file : UploadFile) (quality : Z)
  (w w' : World) (e : HTTPException) :
  not_an_image file = false ->
  crop_square file quality w = (Raises e, w') ->
  status_code e = 400 /\
  log w' = log w ++ [("Image processing failed: " ++ detail e)%string].
Proof.
  intros Hct. unfold crop_square. rewrite Hct. run.
  destruct (Image_open (body file)) as [img|msg];
    [|intros H; inv H; auto].
  destruct (flatten_alpha img _) as [[flat|msg] w1] eqn:Hf;
    apply flatten_alpha_trace in Hf; destruct Hf as [Hlog _];
    cbn in Hlog; [|intros H; inv H; cbn; rewrite Hlog; auto].
  destruct (Image_crop flat _) as [cropped|msg];
    [|intros H; inv H; cbn; rewrite Hlog; auto].
  destruct (Image_save cropped "WEBP" quality true) as [output|msg];
    intros H; inv H; cbn; rewrite Hlog; auto.
Qed.

Context {C : PillowContract P}.

(** C7: when [crop_square] answers, the image it encoded is the crop of
    the box [left, top, left + crop_size, top + crop_size] with
    [crop_size = min(w, h)], [left = (w - crop_size) // 2] and
    [top = (h - crop_size) // 2]: a square of side [min(w, h)], inside the
    image, whose margins on opposite sides differ by at most one pixel. *)
Theorem crop_square_is_centered_square (file : UploadFile) (quality : Z)
  (w w' : World) (r : option Response) :
  crop_square file quality w = (Returns r, w') ->
  exists img flat cropped output,
    Image_open (body file) = Ok img /\
    Image_size flat = Image_size img /\
    let width := fst (Image_size img) in
    let height := snd (Image_size img) in
    let crop_size := Z.min width height in
    let left := (width - crop_size) / 2 in
    let top := (height - crop_size) / 2 in
    Image_crop flat
      (PyInt left, PyInt top, PyInt (left + crop_size), PyInt (top + crop_size))
      = Ok cropped /\
    Image_size cropped = (crop_size, crop_size) /\
    0 <= left /\ 0 <= (width - (left + crop_size)) - left <= 1 /\
    0 <= top /\ 0 <= (height - (top + crop_size)) - top <= 1 /\
    Image_save cropped "WEBP" quality true = Ok output /\
    r = Some (mkResponse output "image/webp").
Proof.
  intros H. apply crop_square_returns_inv in H.
  destruct H as (img & flat & w1 & cropped & output
                 & Hopen & Hflat & Hcrop & Hsave & Hr).
  destruct (flatten_alpha_returns img
              (mkWorld (log w) (calls w ++ [EvRead; EvOpen (body file)]))
              _ _ Hflat)
    as (flat' & Hflat' & Hsize & _).
  rewrite Hflat in Hflat'. inv Hflat'.
  rewrite Hsize in Hcrop.
  destruct (Image_size img) as [width height] eqn:Es.
  destruct (square_box_spec width height) as (Hbox & Hl & Hlr & Ht & Htb).
  rewrite Hbox in Hcrop. cbn [int_box] in Hcrop.
  pose proof (crop_size _ _ _ _ _ _ Hcrop) as Hcs.
  exists img, flat', cropped, output. rewrite Es. cbn [fst snd].
  repeat split; try assumption; try lia.
  rewrite Hcs. f_equal; lia.
Qed.

End CropSquareFacts.

Lemma crop_square_is_centered_square_witness :
  PillowContract HeaderImage.pillow /\
  crop_square (P := HeaderImage.pillow)
    (HeaderImage.png HeaderImage.rgba_500x300) 85 empty_world
  = (Returns (Some (mkResponse
                      [Byte.x01; Byte.x01; Byte.x2c; Byte.x01; Byte.x2c]
                      "image/webp")),
     mkWorld []
       [EvRead; EvOpen HeaderImage.rgba_500x300;
        EvNew "RGB" (500, 300) (255, 255, 255); EvGetchannel "A"; EvPaste;
        EvCrop (PyInt 100, PyInt 0, PyInt 400, PyInt 300);
        EvSave "WEBP" 85 true]) /\
  exists cropped : HeaderImage.header,
    HeaderImage.h_size cropped = (300, 300) /\
    HeaderImage.h_save cropped "WEBP" 85 true
      = Ok [Byte.x01; Byte.x01; Byte.x2c; Byte.x01; Byte.x2c].
Proof.
  split; [exact header_contract|]. split; [vm_compute; reflexivity|].
  destruct (crop_square_is_centered_square (P := HeaderImage.pillow)
              (C := header_contract)
              (HeaderImage.png HeaderImage.rgba_500x300) 85 empty_world
              (mkWorld []
                 [EvRead; EvOpen HeaderImage.rgba_500x300;
                  EvNew "RGB" (500, 300) (255, 255, 255); EvGetchannel "A";
                  EvPaste;
                  EvCrop (PyInt 100, PyInt 0, PyInt 400, PyInt 300);
                  EvSave "WEBP" 85 true])
              (Some (mkResponse
                       [Byte.x01; Byte.x01; Byte.x2c; Byte.x01; Byte.x2c]
                       "image/webp"))
              ltac:(vm_compute; reflexivity))
    as (img & flat & cropped & output & Hopen & _ & _ & Hsize & _ & _ & _ & _
        & Hsave & Hr).
  exists cropped. inversion Hopen; subst img. inversion Hr; subst output.
  split; [exact Hsize | exact Hsave].
Defined.

(** * Further properties of the handlers *)

(** ** The order of the outside calls *)

Lemma outer_calls_app (a b : list event) :
  outer_calls (a ++ b) = outer_calls a ++ outer_calls b.
Proof. apply filter_app. Qed.

Section CallSequences.

Context {P : Pillow}.

Lemma flatten_alpha_calls (img : Image) (w : World) o w' :
  flatten_alpha img w = (o, w') ->
  log w' = log w /\
  exists evs, calls w' = calls w ++ evs /\ outer_calls evs = [].
Proof.
  unfold flatten_alpha.
  destruct (mode_in (Image_mode img) ["RGBA"; "LA"]).
  - run. destruct (Image_getchannel img "A") as [alpha|msg].
    + destruct (Image_paste _ img alpha); intros H; inv H; cbn;
        (split; [reflexivity|]); rewrite <- !app_assoc; eexists;
        (split; [reflexivity|]); reflexivity.
    + intros H; inv H; cbn. (split; [reflexivity|]).
      rewrite <- !app_assoc; eexists. (split; [reflexivity|]). reflexivity.
  - intros H; inv H. split; [reflexivity|]. exists []. rewrite app_nil_r.
    split; reflexivity.
Qed.

(** X1: [resize_in_memory] decodes exactly the bytes it was given, calls
    Pillow's resize at most once and always with the LANCZOS filter, and
    calls the encoder at most once, with the caller's [output_format] and
    [quality] and with [optimize=True]; when it returns, all three calls
    were made, in that order. *)
Theorem resize_in_memory_call_sequence (image_data : bytes)
  (max_width quality : Z) (output_format : string) (w w' : World)
  (o : outcome HTTPException bytes) :
  resize_in_memory image_data max_width quality output_format w = (o, w') ->
  exists evs dims,
    calls w' = calls w ++ evs /\
    match o with
    | Returns _ =>
        outer_calls evs
        = [EvOpen image_data; EvResize dims LANCZOS;
           EvSave output_format quality true]
    | Raises _ =>
        outer_calls evs = [EvOpen image_data] \/
        outer_calls evs = [EvOpen image_data; EvResize dims LANCZOS] \/
        outer_calls evs
        = [EvOpen image_data; EvResize dims LANCZOS;
           EvSave output_format quality true]
    end.
Proof.
  unfold resize_in_memory. run.
  destruct (Image_open image_data) as [img|msg].
  2:{ intros H; inv H; cbn. exists [EvOpen image_data], (0, 0).
      split; [reflexivity|]. left. reflexivity. }
  destruct (flatten_alpha img _) as [[flat|msg] w1] eqn:Hf;
    apply flatten_alpha_calls in Hf;
    destruct Hf as (_ & evs & Hcalls & Hout); cbn in Hcalls;
    unfold outer_calls in *.
  2:{ intros H; inv H; cbn. exists (EvOpen image_data :: evs), (0, 0).
      rewrite Hcalls, <- app_assoc. split; [reflexivity|].
      left. cbn. rewrite Hout. reflexivity. }
  destruct (resize_dims (Image_size flat) max_width) as [dims|msg].
  2:{ intros H; inv H; cbn. exists (EvOpen image_data :: evs), (0, 0).
      rewrite Hcalls, <- app_assoc. split; [reflexivity|].
      left. cbn. rewrite Hout. reflexivity. }
  destruct (Image_resize flat dims LANCZOS) as [resized|msg].
  2:{ intros H; inv H; cbn.
      exists (EvOpen image_data :: evs ++ [EvResize dims LANCZOS]), dims.
      rewrite Hcalls, <- !app_assoc. split; [reflexivity|].
      right. left. cbn. rewrite filter_app, Hout. reflexivity. }
  destruct (Image_save resized output_format quality true) as [out|msg];
    intros H; inv H; cbn;
    exists (EvOpen image_data
            :: evs ++ [EvResize dims LANCZOS;
                       EvSave output_format quality true]), dims;
    rewrite Hcalls, <- !app_assoc; (split; [reflexivity|]);
    cbn; rewrite filter_app, Hout; cbn; auto.
Qed.

End CallSequences.

Lemma resize_in_memory_call_sequence_witness :
  resize_in_memory (P := HeaderImage.pillow) HeaderImage.rgba_500x300 250 70
    "JPEG" empty_world
  = (Returns [Byte.x01; Byte.x00; Byte.xfa; Byte.x00; Byte.x96],
     mkWorld []
       [EvOpen HeaderImage.rgba_500x300;
        EvNew "RGB" (500, 300) (255, 255, 255); EvGetchannel "A"; EvPaste;
        EvResize (250, 150) LANCZOS; EvSave "JPEG" 70 true]) /\
  exists evs dims,
    [EvOpen HeaderImage.rgba_500x300;
     EvNew "RGB" (500, 300) (255, 255, 255); EvGetchannel "A"; EvPaste;
     EvResize (250, 150) LANCZOS; EvSave "JPEG" 70 true] = [] ++ evs /\
    outer_calls evs
    = [EvOpen HeaderImage.rgba_500x300; EvResize dims LANCZOS;
       EvSave "JPEG" 70 true].
Proof.
  split; [vm_compute; reflexivity|].
  apply (resize_in_memory_call_sequence (P := HeaderImage.pillow)
           HeaderImage.rgba_500x300 250 70 "JPEG" empty_world
           (mkWorld []
              [EvOpen HeaderImage.rgba_500x300;
               EvNew "RGB" (500, 300) (255, 255, 255); EvGetchannel "A";
               EvPaste; EvResize (250, 150) LANCZOS; EvSave "JPEG" 70 true])
           (Returns [Byte.x01; Byte.x00; Byte.xfa; Byte.x00; Byte.x96])).
  vm_compute. reflexivity.
Defined.

Section HandlerSequences.

Context {P : Pillow}.

(** X2: a [/resize] request that passes the content-type gate logs
    nothing when it succeeds; when it fails the error is a 400 and exactly
    one line, "Image processing failed: " followed by the error's detail,
    is added to the log. *)
Theorem resize_image_log_discipline (file : UploadFile)
  (max_width quality : Z) (w w' : World)
  (o : outcome HTTPException (option Response)) :
  not_an_image file = false ->
  resize_image file max_width quality w = (o, w') ->
  match o with
  | Returns _ => log w' = log w
  | Raises e =>
      status_code e = 400 /\
      log w' = log w ++ [("Image processing failed: " ++ detail e)%string]
  end.
Proof.
  intros Hct. unfold resize_image. rewrite Hct.
  unfold read, bind, emit, ret. cbn.
  destruct (resize_in_memory (body file) max_width quality
              default_output_format _) as [[out|e] w1] eqn:Hrun;
    apply resize_in_memory_trace in Hrun; destruct Hrun as [_ Hlog];
    cbn in Hlog; intros H; inv H; exact Hlog.
Qed.

(** X3: a [/crop-square] request that passes the gate reads the upload
    once, decodes exactly the bytes read, crops at most once with the box
    computed from an image size, and encodes at most once, as WEBP with
    the request's quality and [optimize=True]; a response is returned only
    after all four calls. *)
Theorem crop_square_call_sequence (file : UploadFile) (quality : Z)
  (w w' : World) (o : outcome HTTPException (option Response)) :
  not_an_image file = false ->
  crop_square file quality w = (o, w') ->
  exists evs size,
    calls w' = calls w ++ evs /\
    match o with
    | Returns _ =>
        outer_calls evs
        = [EvRead; EvOpen (body file); EvCrop (int_box (square_box size));
           EvSave "WEBP" quality true]
    | Raises _ =>
        outer_calls evs = [EvRead; EvOpen (body file)] \/
        outer_calls evs
        = [EvRead; EvOpen (body file); EvCrop (int_box (square_box size))] \/
        outer_calls evs
        = [EvRead; EvOpen (body file); EvCrop (int_box (square_box size));
           EvSave "WEBP" quality true]
    end.
Proof.
  intros Hct. unfold crop_square. rewrite Hct. run.
  destruct (Image_open (body file)) as [img|msg].
  2:{ intros H; inv H; cbn. exists [EvRead; EvOpen (body file)], (0, 0).
      rewrite <- app_assoc. split; [reflexivity|]. left. reflexivity. }
  destruct (flatten_alpha img _) as [[flat|msg] w1] eqn:Hf;
    apply flatten_alpha_calls in Hf;
    destruct Hf as (_ & evs & Hcalls & Hout); cbn in Hcalls;
    unfold outer_calls in *.
  2:{ intros H; inv H; cbn.
      exists (EvRead :: EvOpen (body file) :: evs), (0, 0).
      rewrite Hcalls, <- !app_assoc. split; [reflexivity|].
      left. cbn. rewrite Hout. reflexivity. }
  destruct (Image_crop flat _) as [cropped|msg].
  2:{ intros H; inv H; cbn.
      exists (EvRead :: EvOpen (body file)
              :: evs ++ [EvCrop (int_box (square_box (Image_size flat)))]),
        (Image_size flat).
      rewrite Hcalls, <- !app_assoc. split; [reflexivity|].
      right. left. cbn. rewrite filter_app, Hout. reflexivity. }
  destruct (Image_save cropped "WEBP" quality true) as [out|msg];
    intros H; inv H; cbn;
    exists (EvRead :: EvOpen (body file)
            :: evs ++ [EvCrop (int_box (square_box (Image_size flat)));
                       EvSave "WEBP" quality true]), (Image_size flat);
    rewrite Hcalls, <- !app_assoc; (split; [reflexivity|]);
    cbn; rewrite filter_app, Hout; cbn; auto.
Qed.

(** X4: a [/crop-square] request that passes the gate logs nothing when
    it succeeds; when it fails the error is a 400 and exactly one line,
    "Image processing failed: " followed by the error's detail, is added
    to the log. *)
Theorem crop_square_log_discipline (file : UploadFile) (quality : Z)
  (w w' : World) (o : outcome HTTPException (option Response)) :
  not_an_image file = false ->
  crop_square file quality w = (o, w') ->
  match o with
  | Returns _ => log w' = log w
  | Raises e =>
      status_code e = 400 /\
      log w' = log w ++ [("Image processing failed: " ++ detail e)%string]
  end.
Proof.
  intros Hct. unfold crop_square. rewrite Hct. run.
  destruct (Image_open (body file)) as [img|msg];
    [|intros H; inv H; auto].
  destruct (flatten_alpha img _) as [[flat|msg] w1] eqn:Hf;
    apply flatten_alpha_trace in Hf; destruct Hf as [Hlog _];
    cbn in Hlog; [|intros H; inv H; cbn; rewrite Hlog; auto].
  destruct (Image_crop flat _) as [cropped|msg];
    [|intros H; inv H; cbn; rewrite Hlog; auto].
  destruct (Image_save cropped "WEBP" quality true) as [output|msg];
    intros H; inv H; cbn; rewrite Hlog; auto.
Qed.

(** X5: [/crop] does not validate the box.  Once the upload has passed
    the gate, decoded and been flattened, Pillow's crop is called with the
    caller's box exactly as received, whatever the box is, and what
    happens next is Pillow's doing: if crop raises, the answer is 400 with
    its text; otherwise the encoder is called once, as WEBP with the
    request's quality and [optimize=True], and the handler returns [None],
    or 400 with the encoder's text if it raises.  Nothing is logged. *)
Theorem crop_call_sequence (file : UploadFile)
  (bx : PyFloat.float * PyFloat.float * PyFloat.float * PyFloat.float)
  (quality : Z) (w w1 : World) (img flat : Image) :
  not_an_image file = false ->
  Image_open (body file) = Ok img ->
  flatten_alpha img (mkWorld (log w) (calls w ++ [EvRead; EvOpen (body file)]))
    = (Returns flat, w1) ->
  crop file bx quality w
  = match Image_crop flat (float_box bx) with
    | Raise msg =>
        (Raises (mkHTTPException 400 msg),
         mkWorld (log w) (calls w1 ++ [EvCrop (float_box bx)]))
    | Ok cropped =>
        match Image_save cropped "WEBP" quality true with
        | Raise msg =>
            (Raises (mkHTTPException 400 msg),
             mkWorld (log w)
               (calls w1 ++ [EvCrop (float_box bx);
                             EvSave "WEBP" quality true]))
        | Ok _ =>
            (Returns None,
             mkWorld (log w)
               (calls w1 ++ [EvCrop (float_box bx);
                             EvSave "WEBP" quality true]))
        end
    end.
Proof.
  intros Hct Hopen Hflat.
  pose proof Hflat as Hlog. apply flatten_alpha_trace in Hlog.
  destruct Hlog as [Hlog _]. cbn [log] in Hlog.
  unfold crop. rewrite Hct. run. rewrite Hopen. cbn.
  rewrite <- app_assoc. cbn. rewrite Hflat.
  destruct (Image_crop flat (float_box bx)) as [cropped|msg]; cbn.
  - destruct (Image_save cropped "WEBP" quality true) as [out|msg]; cbn;
      rewrite Hlog, <- app_assoc; reflexivity.
  - rewrite Hlog. reflexivity.
Qed.

End HandlerSequences.

(** The box (4.0, 0.0, 0.0, 2.0), whose right edge is left of its left
    edge, reaches Pillow unchanged; the 400 carries Pillow's refusal. *)
Lemma crop_call_sequence_witness :
  not_an_image (HeaderImage.png HeaderImage.rgb_8x7) = false /\
  Image_open (Pillow := HeaderImage.pillow)
    (body (HeaderImage.png HeaderImage.rgb_8x7))
    = Ok (HeaderImage.mkHeader "RGB" 8 7) /\
  crop (P := HeaderImage.pillow) (HeaderImage.png HeaderImage.rgb_8x7)
    (S754_finite false 1 2, S754_zero false,
     S754_zero false, S754_finite false 1 1) 85 empty_world
  = (Raises (mkHTTPException 400 "Coordinate 'right' is less than 'left'"),
     mkWorld []
       [EvRead; EvOpen HeaderImage.rgb_8x7;
        EvCrop (float_box (S754_finite false 1 2, S754_zero false,
                           S754_zero false, S754_finite false 1 1))]).
Proof.
  split; [reflexivity|]. split; [reflexivity|].
  exact (crop_call_sequence (P := HeaderImage.pillow)
           (HeaderImage.png HeaderImage.rgb_8x7)
           (S754_finite false 1 2, S754_zero false,
            S754_zero false, S754_finite false 1 1) 85 empty_world
           (mkWorld [] [EvRead; EvOpen HeaderImage.rgb_8x7])
           (HeaderImage.mkHeader "RGB" 8 7) (HeaderImage.mkHeader "RGB" 8 7)
           eq_refl eq_refl eq_refl).
Defined.

Section DecodeFailure.

Context {P : Pillow}.

(** X6: when the upload's bytes do not decode, [/resize] and
    [/crop-square] answer 400 with Pillow's decode error as the detail,
    log "Image processing failed: " followed by that text, and make no
    call after the failed decode. *)
Theorem decode_failure_reported (file : UploadFile)
  (max_width quality : Z) (w : World) (msg : string) :
  not_an_image file = false ->
  Image_open (body file) = Raise msg ->
  resize_image file max_width quality w
    = (Raises (mkHTTPException 400 msg),
       mkWorld (log w ++ [("Image processing failed: " ++ msg)%string])
         (calls w ++ [EvRead; EvOpen (body file)])) /\
  crop_square file quality w
    = (Raises (mkHTTPException 400 msg),
       mkWorld (log w ++ [("Image processing failed: " ++ msg)%string])
         (calls w ++ [EvRead; EvOpen (body file)])).
Proof.
  intros Hct Hopen. split.
  - unfold resize_image, resize_in_memory. rewrite Hct. run.
    rewrite Hopen. cbn. rewrite <- app_assoc. reflexivity.
  - unfold crop_square. rewrite Hct. run. rewrite Hopen. cbn.
    rewrite <- app_assoc. reflexivity.
Qed.

End DecodeFailure.

Lemma resize_image_log_discipline_witness :
  not_an_image (HeaderImage.png HeaderImage.rgb_8x7) = false /\
  resize_image (P := HeaderImage.pillow)
    (HeaderImage.png HeaderImage.rgb_8x7) 0 85 empty_world
  = (Raises (mkHTTPException 400 "height and width must be > 0"),
     mkWorld ["Image processing failed: height and width must be > 0"]
       [EvRead; EvOpen HeaderImage.rgb_8x7; EvResize (0, 0) LANCZOS]) /\
  400 = 400 /\
  ["Image processing failed: height and width must be > 0"]
  = [] ++ ["Image processing failed: height and width must be > 0"].
Proof.
  split; [reflexivity|]. split; [vm_compute; reflexivity|].
  apply (resize_image_log_discipline (P := HeaderImage.pillow)
           (HeaderImage.png HeaderImage.rgb_8x7) 0 85 empty_world
           (mkWorld ["Image processing failed: height and width must be > 0"]
              [EvRead; EvOpen HeaderImage.rgb_8x7; EvResize (0, 0) LANCZOS])
           (Raises (mkHTTPException 400 "height and width must be > 0")));
    [reflexivity | vm_compute; reflexivity].
Defined.

Lemma crop_square_call_sequence_witness :
  not_an_image (HeaderImage.png HeaderImage.rgba_500x300) = false /\
  exists evs size,
    [EvRead; EvOpen HeaderImage.rgba_500x300;
     EvNew "RGB" (500, 300) (255, 255, 255); EvGetchannel "A"; EvPaste;
     EvCrop (PyInt 100, PyInt 0, PyInt 400, PyInt 300);
     EvSave "WEBP" 85 true] = [] ++ evs /\
    outer_calls evs
    = [EvRead; EvOpen HeaderImage.rgba_500x300;
       EvCrop (int_box (square_box size)); EvSave "WEBP" 85 true].
Proof.
  split; [reflexivity|].
  apply (crop_square_call_sequence (P := HeaderImage.pillow)
           (HeaderImage.png HeaderImage.rgba_500x300) 85 empty_world
           (mkWorld []
              [EvRead; EvOpen HeaderImage.rgba_500x300;
               EvNew "RGB" (500, 300) (255, 255, 255); EvGetchannel "A";
               EvPaste; EvCrop (PyInt 100, PyInt 0, PyInt 400, PyInt 300);
               EvSave "WEBP" 85 true])
           (Returns (Some (mkResponse
                       [Byte.x01; Byte.x01; Byte.x2c; Byte.x01; Byte.x2c]
                       "image/webp"))));
    [reflexivity | vm_compute; reflexivity].
Defined.

Lemma crop_square_log_discipline_witness :
  not_an_image (HeaderImage.png HeaderImage.corrupt) = false /\
  400 = 400 /\
  ["Image processing failed: cannot identify image file"]
  = [] ++ ["Image processing failed: cannot identify image file"].
Proof.
  split; [reflexivity|].
  apply (crop_square_log_discipline (P := HeaderImage.pillow)
           (HeaderImage.png HeaderImage.corrupt) 85 empty_world
           (mkWorld ["Image processing failed: cannot identify image file"]
              [EvRead; EvOpen HeaderImage.corrupt])
           (Raises (mkHTTPException 400 "cannot identify image file")));
    [reflexivity | vm_compute; reflexivity].
Defined.

Lemma decode_failure_reported_witness :
  not_an_image (HeaderImage.png HeaderImage.corrupt) = false /\
  HeaderImage.h_open (body (HeaderImage.png HeaderImage.corrupt))
    = Raise "cannot identify image file" /\
  resize_image (P := HeaderImage.pillow)
    (HeaderImage.png HeaderImage.corrupt) 800 85 empty_world
  = (Raises (mkHTTPException 400 "cannot identify image file"),
     mkWorld ["Image processing failed: cannot identify image file"]
       [EvRead; EvOpen HeaderImage.corrupt]).
Proof.
  split; [reflexivity|]. split; [reflexivity|].
  exact (proj1 (decode_failure_reported (P := HeaderImage.pillow)
                  (HeaderImage.png HeaderImage.corrupt) 800 85 empty_world
                  "cannot identify image file" eq_refl eq_refl)).
Defined.

(** ** The float arithmetic of the new height *)

Lemma digits2_pos_size (p : positive) : digits2_pos p = Pos.size p.
Proof. induction p; simpl; congruence. Qed.

Lemma digits2_pos_le (p : positive) (k : Z) :
  0 <= k -> Zpos p < 2 ^ k -> Zpos (digits2_pos p) <= k.
Proof.
  intros Hk Hp. rewrite digits2_pos_size.
  destruct (Z.le_gt_cases (Zpos (Pos.size p)) k) as [H|H]; [exact H|].
  exfalso.
  pose proof (Pos.size_le p) as Hs.
  assert (E : Zpos (2 ^ Pos.size p) = 2 ^ Zpos (Pos.size p)).
  { rewrite Pos2Z.inj_pow. reflexivity. }
  assert (H0 : 2 ^ (k + 1) <= 2 ^ Zpos (Pos.size p)).
  { apply Z.pow_le_mono_r; lia. }
  rewrite Z.pow_add_r in H0 by lia.
  assert (H1 : Zpos (2 ^ Pos.size p) <= Zpos (p~0)) by exact Hs.
  rewrite E in H1. lia.
Qed.

Lemma iter_xO_spec (p k : positive) :
  Zpos (Pos.iter xO p k) = Zpos p * 2 ^ Zpos k /\
  digits2_pos (Pos.iter xO p k) = (digits2_pos p + k)%positive.
Proof.
  induction k as [|k IH] using Pos.peano_ind.
  - simpl. split; [lia|]. rewrite Pos.add_1_r. reflexivity.
  - rewrite Pos.iter_succ. destruct IH as [IH1 IH2]. split.
    + rewrite Pos2Z.inj_xO, IH1, Pos2Z.inj_succ, Z.pow_succ_r by lia. lia.
    + simpl. rewrite IH2. lia.
Qed.

Lemma binary_round_aux_exact (s : bool) (mz : positive) (ez : Z) :
  digits2_pos mz = 53%positive ->
  -1074 <= ez <= 971 ->
  binary_round_aux PyFloat.prec PyFloat.emax s (Zpos mz) ez loc_Exact
  = S754_finite s mz ez.
Proof.
  intros Hd He.
  assert (Hf : fexp PyFloat.prec PyFloat.emax (53 + ez) - ez = 0).
  { unfold fexp, emin, PyFloat.prec, PyFloat.emax. lia. }
  unfold binary_round_aux, shr_fexp, Zdigits2. rewrite Hd, Hf.
  cbn [shr shr_record_of_loc shr_m loc_of_shr_record round_nearest_even].
  rewrite Hd, Hf. cbn [shr shr_record_of_loc shr_m].
  unfold PyFloat.prec, PyFloat.emax.
  replace (ez <=? 1024 - 53) with true by (symmetry; apply Z.leb_le; lia).
  reflexivity.
Qed.

Lemma of_int_pos (p : positive) :
  Zpos p < 2 ^ 53 ->
  exists mz,
    PyFloat.of_int (Zpos p)
    = Ok (S754_finite false mz (Zpos (digits2_pos p) - 53)) /\
    Zpos mz = Zpos p * 2 ^ (53 - Zpos (digits2_pos p)) /\
    digits2_pos mz = 53%positive.
Proof.
  intros Hp.
  pose proof (digits2_pos_le p 53 ltac:(lia) Hp) as Hd.
  set (d := digits2_pos p) in *.
  assert (Hf : fexp PyFloat.prec PyFloat.emax (Zpos d + 0) = Zpos d - 53).
  { unfold fexp, emin, PyFloat.prec, PyFloat.emax. lia. }
  unfold PyFloat.of_int, binary_normalize, binary_round. fold d.
  rewrite Hf. unfold shl_align.
  destruct (Zpos d - 53 - 0) as [|k|k] eqn:E; try lia.
  - exists p. assert (Ed : Zpos d = 53) by lia.
    rewrite binary_round_aux_exact.
    + rewrite Ed. simpl. split; [reflexivity|]. split; [lia|].
      fold d. lia.
    + fold d. lia.
    + lia.
  - exists (Pos.iter xO p k).
    destruct (iter_xO_spec p k) as [Hv Hdg]. fold d in Hdg.
    assert (Hdk : (d + k)%positive = 53%positive) by lia.
    rewrite binary_round_aux_exact.
    + split; [reflexivity|]. split; [|congruence].
      rewrite Hv. f_equal. f_equal. lia.
    + congruence.
    + lia.
Qed.

Lemma to_int_of_int_pos (p mz : positive) :
  Zpos p < 2 ^ 53 ->
  Zpos mz = Zpos p * 2 ^ (53 - Zpos (digits2_pos p)) ->
  PyFloat.to_int (S754_finite false mz (Zpos (digits2_pos p) - 53))
  = Ok (Zpos p).
Proof.
  intros Hp Hmz.
  pose proof (digits2_pos_le p 53 ltac:(lia) Hp) as Hd.
  unfold PyFloat.to_int.
  destruct (0 <=? Zpos (digits2_pos p) - 53) eqn:E.
  - apply Z.leb_le in E.
    assert (E0 : Zpos (digits2_pos p) - 53 = 0) by lia.
    assert (E1 : 53 - Zpos (digits2_pos p) = 0) by lia.
    rewrite E0. rewrite E1 in Hmz. rewrite Hmz. f_equal. simpl. lia.
  - rewrite Hmz.
    replace (- (Zpos (digits2_pos p) - 53)) with (53 - Zpos (digits2_pos p))
      by lia.
    rewrite Z.div_mul; [reflexivity|].
    apply Z.pow_nonzero; lia.
Qed.

Lemma true_div_same (p : positive) :
  PyFloat.true_div (Zpos p) (Zpos p) = Ok float_one.
Proof.
  unfold PyFloat.true_div. cbn [Z.eqb PyFloat.raw].
  unfold SFdiv, SFdiv_core_binary, Zdigits2.
  replace (Zpos (digits2_pos p) + 0 - (Zpos (digits2_pos p) + 0)) with 0
    by lia.
  change (Z.min (fexp PyFloat.prec PyFloat.emax 0) (0 - 0)) with (-53).
  change (0 - 0 - -53) with 53.
  cbv beta iota zeta.
  rewrite Z.shiftl_mul_pow2 by lia.
  destruct (Z.div_eucl (Zpos p * 2 ^ 53) (Zpos p)) as [q r] eqn:E.
  assert (Hq : q = 2 ^ 53).
  { change q with (fst (q, r)). rewrite <- E.
    change (fst (Z.div_eucl (Zpos p * 2 ^ 53) (Zpos p)))
      with ((Zpos p * 2 ^ 53) / Zpos p).
    rewrite Z.mul_comm. apply Z.div_mul. lia. }
  assert (Hr : r = 0).
  { change r with (snd (q, r)). rewrite <- E.
    change (snd (Z.div_eucl (Zpos p * 2 ^ 53) (Zpos p)))
      with ((Zpos p * 2 ^ 53) mod Zpos p).
    rewrite Z.mul_comm. apply Z.mod_mul. lia. }
  subst q r.
  assert (Hl : new_location (Zpos p) 0 = loc_Exact).
  { unfold new_location, new_location_even, new_location_odd.
    destruct (Z.even (Zpos p)); reflexivity. }
  rewrite Hl. reflexivity.
Qed.

Lemma mul_float_one (s : bool) (mz : positive) (ez : Z) :
  digits2_pos mz = 53%positive ->
  -1022 <= ez <= 971 ->
  SFmul PyFloat.prec PyFloat.emax (S754_finite s mz ez) float_one
  = S754_finite s mz ez.
Proof.
  intros Hd He. unfold SFmul, float_one.
  rewrite xorb_false_r, Pos.mul_comm.
  cbn [Pos.mul].
  unfold binary_round_aux, shr_fexp, Zdigits2.
  cbn [digits2_pos]. rewrite Hd.
  match goal with
  | |- context [fexp _ _ (Z.pos ?D + _)] => change (Z.pos D) with 105
  end.
  assert (Hf : fexp PyFloat.prec PyFloat.emax (105 + (ez + -52)) - (ez + -52)
               = 52).
  { unfold fexp, emin, PyFloat.prec, PyFloat.emax. lia. }
  rewrite Hf.
  cbn [shr shr_record_of_loc iter_pos shr_1 orb shr_m loc_of_shr_record
       round_nearest_even].
  rewrite Hd.
  assert (Hg : fexp PyFloat.prec PyFloat.emax (53 + (ez + -52 + 52))
               - (ez + -52 + 52) = 0).
  { unfold fexp, emin, PyFloat.prec, PyFloat.emax. lia. }
  rewrite Hg. cbn [shr shr_m].
  unfold PyFloat.prec, PyFloat.emax.
  replace (ez + -52 + 52 <=? 1024 - 53) with true
    by (symmetry; apply Z.leb_le; lia).
  f_equal. lia.
Qed.

(** On a square image the aspect ratio is exactly 1.0 and nothing is lost
    in the product or in [int]. *)
Lemma resize_dims_square (w max_width : Z) :
  1 <= w < 2 ^ 53 ->
  1 <= max_width ->
  resize_dims (w, w) max_width = Ok (Z.min max_width w, Z.min max_width w).
Proof.
  intros Hw Hmw. unfold resize_dims. cbn [fst snd].
  destruct w as [|p|p]; try lia.
  rewrite true_div_same. cbn [result_bind].
  destruct (Z.min max_width (Zpos p)) as [|q|q] eqn:Hmin; try lia.
  assert (Hq : Zpos q < 2 ^ 53) by lia.
  destruct (of_int_pos q Hq) as (mz & Hof & Hmz & Hd).
  pose proof (digits2_pos_le q 53 ltac:(lia) Hq) as Hdq.
  unfold PyFloat.int_mul. rewrite Hof. cbn [result_bind].
  rewrite mul_float_one by (assumption || lia). cbn [result_bind].
  rewrite (to_int_of_int_pos q mz Hq Hmz). reflexivity.
Qed.

(** X7: for a square image of side below 2^53 and [max_width >= 1], a
    resize that returns has encoded a square image of side
    [min(max_width, side)]; a square image no wider than [max_width] keeps
    its dimensions. *)
Theorem resize_square_image_exact {P : Pillow} {C : PillowContract P}
  (data : bytes) (max_width quality : Z) (fmt : string) (w w' : World)
  (out : bytes) (img : Image) :
  resize_in_memory data max_width quality fmt w = (Returns out, w') ->
  Image_open data = Ok img ->
  fst (Image_size img) = snd (Image_size img) ->
  fst (Image_size img) < 2 ^ 53 ->
  1 <= max_width ->
  exists resized,
    Image_save resized fmt quality true = Ok out /\
    Image_size resized
    = (Z.min max_width (fst (Image_size img)),
       Z.min max_width (fst (Image_size img))) /\
    (fst (Image_size img) <= max_width ->
     Image_size resized = Image_size img).
Proof.
  intros Hrun Hopen Hsq Hside Hmw.
  apply resize_in_memory_returns in Hrun.
  destruct Hrun as (img' & flat & resized & nh
                    & Hopen' & _ & Hdims & _ & Hsize & Hsave).
  rewrite Hopen in Hopen'. inv Hopen'.
  pose proof (resize_dims_inv _ _ _ _ Hdims) as (_ & Hnz & _).
  destruct (size_nonneg img') as [Hw _].
  destruct (Image_size img') as [side height] eqn:Es.
  cbn [fst snd] in *. subst height.
  rewrite resize_dims_square in Hdims by lia.
  assert (Hnh : nh = Z.min max_width side) by congruence. subst nh.
  exists resized. split; [exact Hsave|]. split.
  - exact Hsize.
  - intros Hle. rewrite Hsize.
    rewrite Z.min_r by lia. reflexivity.
Qed.

Lemma resize_square_image_exact_witness :
  PillowContract HeaderImage.pillow /\
  exists resized : HeaderImage.header,
    HeaderImage.h_save resized "WEBP" 85 true
      = Ok [Byte.x01; Byte.x00; Byte.xc8; Byte.x00; Byte.xc8] /\
    HeaderImage.h_size resized = (Z.min 200 300, Z.min 200 300).
Proof.
  split; [exact header_contract|].
  destruct (resize_square_image_exact (P := HeaderImage.pillow)
              (C := header_contract)
              [Byte.x01; Byte.x01; Byte.x2c; Byte.x01; Byte.x2c] 200 85 "WEBP"
              empty_world
              (mkWorld []
                 [EvOpen [Byte.x01; Byte.x01; Byte.x2c; Byte.x01; Byte.x2c];
                  EvResize (200, 200) LANCZOS; EvSave "WEBP" 85 true])
              [Byte.x01; Byte.x00; Byte.xc8; Byte.x00; Byte.xc8]
              (HeaderImage.mkHeader "RGB" 300 300)
              ltac:(vm_compute; reflexivity) eq_refl eq_refl
              ltac:(vm_compute; reflexivity) ltac:(lia))
    as (resized & Hsave & Hsize & _).
  exists resized. split; [exact Hsave | exact Hsize].
Defined.

(** ** Signs *)

Lemma binary_round_aux_nonneg (mx ex : Z) (lx : location) :
  float_nonneg (binary_round_aux PyFloat.prec PyFloat.emax false mx ex lx)
  = true.
Proof.
  unfold binary_round_aux.
  destruct (shr_fexp PyFloat.prec PyFloat.emax mx ex lx) as [mrs' e'].
  destruct (shr_fexp _ _ _ e' loc_Exact) as [mrs'' e''].
  destruct (shr_m mrs''); try reflexivity.
  destruct (e'' <=? PyFloat.emax - PyFloat.prec); reflexivity.
Qed.

Lemma true_div_nonneg (a b : Z) (x : PyFloat.float) :
  0 <= a -> 0 < b -> PyFloat.true_div a b = Ok x -> float_nonneg x = true.
Proof.
  intros Ha Hb. unfold PyFloat.true_div.
  destruct (b =? 0); [discriminate|].
  destruct b as [|q|q]; try lia. destruct a as [|p|p]; try lia.
  - cbn. intros H; inv H. reflexivity.
  - cbn [PyFloat.raw]. unfold SFdiv.
    destruct (SFdiv_core_binary _ _ (Zpos p) 0 (Zpos q) 0) as [[mz ez] lz].
    cbn [xorb].
    pose proof (binary_round_aux_nonneg mz ez lz) as Hn.
    destruct (binary_round_aux _ _ false mz ez lz) as [s|s| |s m e];
      intros H; inv H; exact Hn.
Qed.

Lemma of_int_nonneg (n : Z) (x : PyFloat.float) :
  0 <= n -> PyFloat.of_int n = Ok x -> float_nonneg x = true.
Proof.
  intros Hn. unfold PyFloat.of_int, binary_normalize.
  destruct n as [|p|p]; try lia.
  - intros H; inv H. reflexivity.
  - unfold binary_round.
    destruct (shl_align p 0 _) as [mz ez].
    pose proof (binary_round_aux_nonneg (Zpos mz) ez loc_Exact) as Hr.
    destruct (binary_round_aux _ _ false (Zpos mz) ez loc_Exact)
      as [s|s| |s m e]; intros H; inv H; exact Hr.
Qed.

Lemma SFmul_nonneg (x y : PyFloat.float) :
  float_nonneg x = true -> float_nonneg y = true ->
  float_nonneg (SFmul PyFloat.prec PyFloat.emax x y) = true.
Proof.
  destruct x as [[|]|[|]| |[|] mx ex], y as [[|]|[|]| |[|] my ey];
    cbn; intros Hx Hy; try reflexivity; try discriminate.
  apply binary_round_aux_nonneg.
Qed.

Lemma to_int_nonneg (x : PyFloat.float) (n : Z) :
  float_nonneg x = true -> PyFloat.to_int x = Ok n -> 0 <= n.
Proof.
  destruct x as [s|s| |s m e]; unfold PyFloat.to_int, float_nonneg;
    try discriminate.
  - intros _ H; inv H. lia.
  - destruct s; [discriminate|]. intros _ H.
    assert (Hn : n = if 0 <=? e then Zpos m * 2 ^ e
                     else Zpos m / 2 ^ (- e)).
    { cbv zeta in H. congruence. }
    rewrite Hn. destruct (0 <=? e) eqn:E.
    + apply Z.leb_le in E. apply Z.mul_nonneg_nonneg; [lia|].
      apply Z.pow_nonneg. lia.
    + apply Z.leb_gt in E. apply Z.div_pos; [lia|].
      apply Z.pow_pos_nonneg; lia.
Qed.

(** X8: for an image of width at least 1 and a non-negative height, and a
    non-negative [max_width], the dimensions handed to Pillow's resize are
    never negative: the new width lies between 0 and the image's width and
    the new height is at least 0. *)
Theorem resize_dims_nonnegative (w h max_width new_width new_height : Z) :
  1 <= w -> 0 <= h -> 0 <= max_width ->
  resize_dims (w, h) max_width = Ok (new_width, new_height) ->
  0 <= new_width <= w /\ new_width <= max_width /\ 0 <= new_height.
Proof.
  intros Hw Hh Hmw Hdims. apply resize_dims_inv in Hdims.
  cbn [fst snd] in Hdims.
  destruct Hdims as (Hnw & _ & a & p & Ha & Hp & Hint).
  split; [lia|]. split; [lia|].
  apply true_div_nonneg in Ha; try lia.
  unfold PyFloat.int_mul in Hp.
  destruct (PyFloat.of_int new_width) as [fn|] eqn:Hof; [|discriminate].
  cbn [result_bind] in Hp. inv Hp.
  apply of_int_nonneg in Hof; [|lia].
  eapply to_int_nonneg; [|exact Hint].
  apply SFmul_nonneg; assumption.
Qed.

Lemma resize_dims_nonnegative_witness :
  1 <= 600 /\ 0 <= 414 /\ 0 <= 800 /\
  resize_dims (600, 414) 800 = Ok (600, 413) /\
  0 <= 600 <= 600 /\ 600 <= 800 /\ 0 <= 413.
Proof.
  split; [lia|]. split; [lia|]. split; [lia|].
  split; [vm_compute; reflexivity|].
  apply (resize_dims_nonnegative 600 414 800 600 413);
    [lia | lia | lia | vm_compute; reflexivity].
Defined.

(** ** How far the computed height is from the exact quotient *)

Lemma digits2_pos_bounds (p : positive) :
  2 ^ (Zpos (digits2_pos p) - 1) <= Zpos p < 2 ^ Zpos (digits2_pos p).
Proof.
  induction p as [p IH|p IH|]; cbn [digits2_pos].
  - rewrite Pos2Z.inj_succ. change (Zpos p~1) with (2 * Zpos p + 1).
    replace (Z.succ (Zpos (digits2_pos p)) - 1)
      with (Z.succ (Zpos (digits2_pos p) - 1)) by lia.
    rewrite !Z.pow_succ_r by lia.
    set (a := 2 ^ (Zpos (digits2_pos p) - 1)) in *.
    set (b := 2 ^ Zpos (digits2_pos p)) in *.
    destruct IH. split; lia.
  - rewrite Pos2Z.inj_succ. change (Zpos p~0) with (2 * Zpos p).
    replace (Z.succ (Zpos (digits2_pos p)) - 1)
      with (Z.succ (Zpos (digits2_pos p) - 1)) by lia.
    rewrite !Z.pow_succ_r by lia.
    set (a := 2 ^ (Zpos (digits2_pos p) - 1)) in *.
    set (b := 2 ^ Zpos (digits2_pos p)) in *.
    destruct IH. split; lia.
  - simpl. lia.
Qed.

Lemma digits2_pos_unique (p : positive) (k : Z) :
  2 ^ (k - 1) <= Zpos p < 2 ^ k -> Zpos (digits2_pos p) = k.
Proof.
  intros [Hlo Hhi]. pose proof (digits2_pos_bounds p) as [Blo Bhi].
  set (d := Zpos (digits2_pos p)) in *.
  assert (Hd : 0 < d) by (unfold d; lia).
  destruct (Z.lt_trichotomy d k) as [H|[H|H]]; [|exact H|].
  - exfalso. assert (2 ^ d <= 2 ^ (k - 1)) by (apply Z.pow_le_mono_r; lia).
    lia.
  - exfalso.
    assert (0 <= k).
    { destruct (Z.le_gt_cases 0 k); [assumption|].
      rewrite (Z.pow_neg_r 2 k) in Hhi by lia. lia. }
    assert (2 ^ k <= 2 ^ (d - 1)) by (apply Z.pow_le_mono_r; lia).
    lia.
Qed.

Lemma shr_1_m (mrs : shr_record) :
  0 <= shr_m mrs -> shr_m (shr_1 mrs) = shr_m mrs / 2.
Proof.
  destruct mrs as [m r s]. cbn [shr_m]. intros Hm.
  destruct m as [|[p|p|]|p]; cbn [shr_1 shr_m]; try lia.
  - reflexivity.
  - apply Z.div_unique with (r := 1); lia.
  - apply Z.div_unique with (r := 0); lia.
  - reflexivity.
Qed.

Lemma pow2_xI (n : positive) :
  2 ^ Zpos n~1 = 2 * (2 ^ Zpos n * 2 ^ Zpos n).
Proof.
  replace (Zpos n~1) with (1 + (Zpos n + Zpos n)) by lia.
  rewrite !Z.pow_add_r by lia. reflexivity.
Qed.

Lemma pow2_xO (n : positive) : 2 ^ Zpos n~0 = 2 ^ Zpos n * 2 ^ Zpos n.
Proof.
  replace (Zpos n~0) with (Zpos n + Zpos n) by lia.
  rewrite !Z.pow_add_r by lia. reflexivity.
Qed.

Lemma iter_shr_1_m (n : positive) (mrs : shr_record) :
  0 <= shr_m mrs ->
  shr_m (iter_pos shr_1 n mrs) = shr_m mrs / 2 ^ Zpos n.
Proof.
  revert mrs. induction n as [n IH|n IH|]; intros mrs Hm; cbn [iter_pos].
  - assert (Hp : 0 < 2 ^ Zpos n) by (apply Z.pow_pos_nonneg; lia).
    assert (H1 : 0 <= shr_m (shr_1 mrs)).
    { rewrite shr_1_m by assumption. apply Z.div_pos; lia. }
    assert (H2 : 0 <= shr_m (iter_pos shr_1 n (shr_1 mrs))).
    { rewrite IH by assumption. apply Z.div_pos; assumption. }
    rewrite IH by assumption. rewrite IH by assumption.
    rewrite shr_1_m by assumption.
    rewrite pow2_xI.
    rewrite !Z.div_div by lia. reflexivity.
  - assert (Hp : 0 < 2 ^ Zpos n) by (apply Z.pow_pos_nonneg; lia).
    assert (H2 : 0 <= shr_m (iter_pos shr_1 n mrs)).
    { rewrite IH by assumption. apply Z.div_pos; assumption. }
    rewrite IH by assumption. rewrite IH by assumption.
    rewrite pow2_xO.
    rewrite !Z.div_div by lia. reflexivity.
  - rewrite shr_1_m by assumption. reflexivity.
Qed.

Lemma shr_m_spec (mrs : shr_record) (e n : Z) :
  0 <= shr_m mrs -> 0 <= n ->
  shr_m (fst (shr mrs e n)) = shr_m mrs / 2 ^ n /\
  snd (shr mrs e n) = e + n.
Proof.
  intros Hm Hn. unfold shr. destruct n as [|p|p]; try lia.
  - cbn [fst snd]. rewrite Z.div_1_r. split; [reflexivity | lia].
  - cbn [fst snd]. split; [|reflexivity]. apply iter_shr_1_m. assumption.
Qed.

Lemma round_nearest_even_near (mx : Z) (lx : location) :
  round_nearest_even mx lx = mx \/ round_nearest_even mx lx = mx + 1.
Proof.
  unfold round_nearest_even.
  destruct lx as [|[| |]]; auto. destruct (Z.even mx); auto.
Qed.

Lemma shr_record_of_loc_m (m : Z) (l : location) :
  shr_m (shr_record_of_loc m l) = m.
Proof. destruct l as [|[| |]]; reflexivity. Qed.

(** Rounding a mantissa of at least 53 digits, in the normal range. *)
Lemma binary_round_aux_spec (s : bool) (mx : positive) (ex : Z)
  (lx : location) :
  let d := Zpos (digits2_pos mx) in
  53 <= d ->
  -1074 <= ex + d - 53 ->
  ex + d <= 1023 ->
  exists m e,
    binary_round_aux PyFloat.prec PyFloat.emax s (Zpos mx) ex lx
    = S754_finite s m e /\
    ex + (d - 53) <= e <= ex + (d - 53) + 1 /\
    2 ^ 52 <= Zpos m < 2 ^ 53 /\
    2 ^ 52 <= Zpos mx / 2 ^ (d - 53) < 2 ^ 53 /\
    (Zpos m * 2 ^ (e - (ex + (d - 53))) = Zpos mx / 2 ^ (d - 53) \/
     Zpos m * 2 ^ (e - (ex + (d - 53))) = Zpos mx / 2 ^ (d - 53) + 1).
Proof.
  intros d Hd Hlo Hhi.
  set (n := d - 53). set (mt := Zpos mx / 2 ^ n).
  assert (Hn : 0 <= n) by (unfold n; lia).
  assert (Hpow : 0 < 2 ^ n) by (apply Z.pow_pos_nonneg; lia).
  assert (Hmt : 2 ^ 52 <= mt < 2 ^ 53).
  { pose proof (digits2_pos_bounds mx) as [Blo Bhi]. fold d in Blo, Bhi.
    replace (d - 1) with (52 + n) in Blo by (unfold n; lia).
    replace d with (53 + n) in Bhi by (unfold n; lia).
    rewrite Z.pow_add_r in Blo, Bhi by lia.
    unfold mt. split.
    - apply Z.div_le_lower_bound; lia.
    - apply Z.div_lt_upper_bound; lia. }
  unfold binary_round_aux.
  assert (Hf1 : fexp PyFloat.prec PyFloat.emax (Zdigits2 (Zpos mx) + ex) - ex
                = n).
  { unfold fexp, emin, PyFloat.prec, PyFloat.emax, Zdigits2. fold d.
    unfold n. lia. }
  unfold shr_fexp at 1. rewrite Hf1.
  destruct (shr_m_spec (shr_record_of_loc (Zpos mx) lx) ex n) as [Hm1 He1];
    [rewrite shr_record_of_loc_m; lia | lia |].
  rewrite shr_record_of_loc_m in Hm1. fold mt in Hm1.
  destruct (shr (shr_record_of_loc (Zpos mx) lx) ex n) as [mrs' e'].
  cbn [fst snd] in Hm1, He1. subst e'.
  set (mr := round_nearest_even (shr_m mrs') (loc_of_shr_record mrs')).
  assert (Hmr : mr = mt \/ mr = mt + 1).
  { unfold mr. rewrite <- Hm1. apply round_nearest_even_near. }
  unfold shr_fexp.
  destruct (Z.eq_dec mr (2 ^ 53)) as [Htop|Hnot].
  - (* the mantissa rounded up to 2^53: one more shift *)
    rewrite Htop.
    change (Zdigits2 (2 ^ 53)) with 54.
    assert (Hf2 : fexp PyFloat.prec PyFloat.emax (54 + (ex + n)) - (ex + n)
                  = 1).
    { unfold fexp, emin, PyFloat.prec, PyFloat.emax. unfold n. lia. }
    rewrite Hf2. change (2 ^ 53) with 9007199254740992.
    cbn [shr shr_record_of_loc iter_pos shr_1 shr_m orb].
    unfold PyFloat.emax, PyFloat.prec.
    replace (ex + n + 1 <=? 1024 - 53) with true
      by (symmetry; apply Z.leb_le; unfold n; lia).
    eexists _, _. split; [reflexivity|]. split; [lia|].
    split; [split; [apply Z.le_refl | reflexivity]|]. split; [exact Hmt|].
    right. replace (ex + n + 1 - (ex + n)) with 1 by lia.
    change (Zpos 4503599627370496 * 2 ^ 1) with (2 ^ 53). lia.
  - assert (Hrange : 2 ^ 52 <= mr < 2 ^ 53) by lia.
    destruct mr as [|pr|pr] eqn:Epr; try lia.
    assert (Hdr : Zdigits2 (Zpos pr) = 53).
    { unfold Zdigits2. apply digits2_pos_unique. exact Hrange. }
    rewrite Hdr.
    assert (Hf2 : fexp PyFloat.prec PyFloat.emax (53 + (ex + n)) - (ex + n)
                  = 0).
    { unfold fexp, emin, PyFloat.prec, PyFloat.emax. unfold n. lia. }
    rewrite Hf2. cbn [shr shr_record_of_loc shr_m].
    unfold PyFloat.emax, PyFloat.prec.
    replace (ex + n <=? 1024 - 53) with true
      by (symmetry; apply Z.leb_le; unfold n; lia).
    exists pr, (ex + n). split; [reflexivity|]. split; [lia|].
    split; [exact Hrange|]. split; [exact Hmt|].
    rewrite Z.sub_diag, Z.pow_0_r, Z.mul_1_r. exact Hmr.
Qed.

Lemma digits2_pos_range (p : positive) :
  Zpos p < 2 ^ 53 -> 1 <= Zpos (digits2_pos p) <= 53.
Proof.
  intros H. split; [lia|]. apply digits2_pos_le; [lia | exact H].
Qed.

(** The quotient of two positive ints below 2^53. *)
Lemma true_div_spec (ph pw : positive) :
  Zpos ph < 2 ^ 53 -> Zpos pw < 2 ^ 53 ->
  exists ma ea mt e1,
    PyFloat.true_div (Zpos ph) (Zpos pw) = Ok (S754_finite false ma ea) /\
    2 ^ 52 <= Zpos ma < 2 ^ 53 /\
    -106 <= e1 <= 0 /\ e1 <= ea <= e1 + 1 /\
    2 ^ 52 <= mt /\
    (Zpos ma * 2 ^ (ea - e1) = mt \/ Zpos ma * 2 ^ (ea - e1) = mt + 1) /\
    mt * Zpos pw <= Zpos ph * 2 ^ (- e1) < (mt + 1) * Zpos pw.
Proof.
  intros Hh Hw.
  pose proof (digits2_pos_range ph Hh) as Hd1.
  pose proof (digits2_pos_range pw Hw) as Hd2.
  pose proof (digits2_pos_bounds ph) as [Bh1 Bh2].
  pose proof (digits2_pos_bounds pw) as [Bw1 Bw2].
  set (D1 := Zpos (digits2_pos ph)) in *.
  set (D2 := Zpos (digits2_pos pw)) in *.
  set (S := 53 + D2 - D1).
  assert (HS : 1 <= S <= 105) by (unfold S; lia).
  set (q := (Zpos ph * 2 ^ S) / Zpos pw).
  assert (HpS : 0 < 2 ^ S) by (apply Z.pow_pos_nonneg; lia).
  (* the quotient has 53 or 54 digits *)
  assert (Hq : 2 ^ 52 <= q < 2 ^ 54).
  { unfold q. split.
    - apply Z.div_le_lower_bound; [lia|].
      assert (E : 2 ^ (D1 - 1) * 2 ^ S = 2 ^ 52 * 2 ^ D2).
      { rewrite <- !Z.pow_add_r by lia. f_equal. unfold S. lia. }
      assert (Zpos pw * 2 ^ 52 <= 2 ^ 52 * 2 ^ D2) by nia.
      assert (2 ^ (D1 - 1) * 2 ^ S <= Zpos ph * 2 ^ S) by nia.
      lia.
    - apply Z.div_lt_upper_bound; [lia|].
      assert (E : 2 ^ D1 * 2 ^ S = 2 ^ 54 * 2 ^ (D2 - 1)).
      { rewrite <- !Z.pow_add_r by lia. f_equal. unfold S. lia. }
      assert (Zpos ph * 2 ^ S < 2 ^ D1 * 2 ^ S) by nia.
      assert (2 ^ 54 * 2 ^ (D2 - 1) <= Zpos pw * 2 ^ 54) by nia.
      lia. }
  assert (Hqw : q * Zpos pw <= Zpos ph * 2 ^ S < (q + 1) * Zpos pw).
  { pose proof (Z.mul_div_le (Zpos ph * 2 ^ S) (Zpos pw) ltac:(lia)).
    pose proof (Z.mul_succ_div_gt (Zpos ph * 2 ^ S) (Zpos pw) ltac:(lia)).
    fold q in H, H0. lia. }
  destruct q as [|pq|pq] eqn:Eq; try lia.
  set (dq := Zpos (digits2_pos pq)).
  assert (Hdq : dq = 53 \/ dq = 54).
  { destruct (Z_lt_le_dec (Zpos pq) (2 ^ 53)).
    - left. apply digits2_pos_unique. lia.
    - right. apply digits2_pos_unique. lia. }
  destruct (binary_round_aux_spec false pq (- S)
              (new_location (Zpos pw) ((Zpos ph * 2 ^ S) mod Zpos pw)))
    as (ma & ea & Hround & Hea & Hma & Hmt & Hval);
    try (fold dq; lia).
  fold dq in Hround, Hea, Hmt, Hval.
  set (n := dq - 53) in *. set (mt := Zpos pq / 2 ^ n) in *.
  exists ma, ea, mt, (- S + n).
  split.
  { unfold PyFloat.true_div. cbn [Z.eqb PyFloat.raw].
    unfold SFdiv, SFdiv_core_binary, Zdigits2. fold D1 D2.
    assert (He' : Z.min (fexp PyFloat.prec PyFloat.emax (D1 + 0 - (D2 + 0)))
                    (0 - 0) = - S).
    { unfold fexp, emin, PyFloat.prec, PyFloat.emax, S. lia. }
    rewrite He'. replace (0 - 0 - - S) with S by lia.
    destruct S as [|pS|pS] eqn:ES; try lia.
    rewrite Z.shiftl_mul_pow2 by lia.
    assert (Hde : Z.div_eucl (Zpos ph * 2 ^ Zpos pS) (Zpos pw)
                  = (Zpos pq, (Zpos ph * 2 ^ Zpos pS) mod Zpos pw)).
    { unfold Z.modulo. fold q in Eq. unfold q, Z.div in Eq.
      destruct (Z.div_eucl (Zpos ph * 2 ^ Zpos pS) (Zpos pw)) as [q0 r0].
      cbn [fst snd] in *. congruence. }
    rewrite Hde. cbn [xorb]. rewrite Hround. reflexivity. }
  split; [exact Hma|]. split; [unfold n; lia|]. split; [lia|].
  split; [lia|]. split; [exact Hval|].
  replace (- (- S + n)) with (S - n) by lia.
  assert (Hmtq : mt * 2 ^ n <= Zpos pq < (mt + 1) * 2 ^ n).
  { assert (H0 : 0 < 2 ^ n) by (apply Z.pow_pos_nonneg; unfold n; lia).
    pose proof (Z.mul_div_le (Zpos pq) (2 ^ n) H0) as H1.
    pose proof (Z.mul_succ_div_gt (Zpos pq) (2 ^ n) H0) as H2.
    fold mt in H1, H2. lia. }
  assert (HSn : 2 ^ S = 2 ^ (S - n) * 2 ^ n).
  { rewrite <- Z.pow_add_r by (unfold n; lia). f_equal. lia. }
  rewrite HSn in Hqw.
  assert (Hn : 0 < 2 ^ n) by (apply Z.pow_pos_nonneg; unfold n; lia).
  set (P := 2 ^ (S - n)) in *. set (N := 2 ^ n) in *.
  split; nia.
Qed.

(** The product of a positive int below 2^53 and a normal positive float. *)
Lemma int_mul_spec (pn ma : positive) (ea : Z) :
  Zpos pn < 2 ^ 53 -> 2 ^ 52 <= Zpos ma < 2 ^ 53 -> -200 <= ea <= 200 ->
  exists mp ep mt e1 t k,
    PyFloat.int_mul (Zpos pn) (S754_finite false ma ea)
    = Ok (S754_finite false mp ep) /\
    2 ^ 52 <= Zpos mp < 2 ^ 53 /\
    e1 <= ep <= e1 + 1 /\
    2 ^ 52 <= mt /\
    (Zpos mp * 2 ^ (ep - e1) = mt \/ Zpos mp * 2 ^ (ep - e1) = mt + 1) /\
    0 <= t <= 52 /\ 52 <= k <= 53 /\ k = e1 - ea + t /\
    mt * 2 ^ k <= Zpos pn * 2 ^ t * Zpos ma < (mt + 1) * 2 ^ k.
Proof.
  intros Hn Hma Hea.
  destruct (of_int_pos pn Hn) as (mn & Hof & Hmn & Hdn).
  pose proof (digits2_pos_range pn Hn) as Hd.
  set (dn := Zpos (digits2_pos pn)) in *.
  pose proof (digits2_pos_bounds mn) as Bmn. rewrite Hdn in Bmn.
  change (53 - 1) with 52 in Bmn.
  assert (Hprod : 2 ^ 104 <= Zpos (mn * ma) < 2 ^ 106).
  { rewrite Pos2Z.inj_mul.
    change (2 ^ 104) with (2 ^ 52 * 2 ^ 52).
    change (2 ^ 106) with (2 ^ 53 * 2 ^ 53).
    split.
    - apply Z.mul_le_mono_nonneg; lia.
    - apply Z.mul_lt_mono_nonneg; lia. }
  set (dp := Zpos (digits2_pos (mn * ma))).
  assert (Hdp : dp = 105 \/ dp = 106).
  { destruct (Z_lt_le_dec (Zpos (mn * ma)) (2 ^ 105)).
    - left. apply digits2_pos_unique. change (105 - 1) with 104. lia.
    - right. apply digits2_pos_unique. change (106 - 1) with 105. lia. }
  destruct (binary_round_aux_spec false (mn * ma) (dn - 53 + ea) loc_Exact)
    as (mp & ep & Hround & Hep & Hmp & Hmt & Hval);
    try (fold dp; lia).
  fold dp in Hround, Hep, Hmt, Hval.
  set (k := dp - 53) in *. set (mt := Zpos (mn * ma) / 2 ^ k) in *.
  exists mp, ep, mt, (dn - 53 + ea + k), (53 - dn), k.
  split.
  { unfold PyFloat.int_mul. rewrite Hof. cbn [result_bind].
    unfold SFmul. cbn [xorb]. rewrite Hround. reflexivity. }
  split; [exact Hmp|]. split; [exact Hep|]. split; [lia|].
  split; [exact Hval|]. split; [lia|]. split; [unfold k; lia|].
  split; [lia|].
  assert (H0 : 0 < 2 ^ k) by (apply Z.pow_pos_nonneg; unfold k; lia).
  pose proof (Z.mul_div_le (Zpos (mn * ma)) (2 ^ k) H0) as H1.
  pose proof (Z.mul_succ_div_gt (Zpos (mn * ma)) (2 ^ k) H0) as H2.
  fold mt in H1, H2.
  rewrite Pos2Z.inj_mul, Hmn in H1, H2. lia.
Qed.

(** A value within one unit in the last place of a bracketed quantity. *)
Lemma within_ulp (c mt A num den : Z) :
  0 < den -> 0 < c -> c <= mt ->
  A = mt \/ A = mt + 1 ->
  mt * den <= num < (mt + 1) * den ->
  num * (c - 1) <= A * den * c <= num * (c + 1).
Proof.
  intros Hden Hc Hmt HA [Hlo Hhi].
  assert (Hcd : c * den <= mt * den) by nia.
  assert (HAd : A * den = mt * den \/ A * den = mt * den + den).
  { destruct HA as [->| ->]; [left | right]; lia. }
  set (u := mt * den) in *. set (v := A * den) in *.
  assert (Hhi' : num < u + den) by lia.
  clearbody u v. clear HA Hmt.
  assert (M1 : num * c <= (u + den) * c)
    by (apply Z.mul_le_mono_nonneg_r; lia).
  assert (M2 : u * c <= num * c)
    by (apply Z.mul_le_mono_nonneg_r; lia).
  replace (c * den) with (den * c) in Hcd by ring.
  split.
  - destruct HAd as [->| ->]; lia.
  - destruct HAd as [->| ->]; lia.
Qed.

Lemma floor_close (c n h w A P B K J T ma : Z) :
  0 < c -> 0 < w -> 0 <= h -> 0 < n -> 0 < P -> 0 < K -> 0 < J -> 0 < T ->
  0 < ma -> 0 <= B ->
  A = ma * J ->
  h * P * (c - 1) <= A * w * c <= h * P * (c + 1) ->
  (n * T * ma) * (c - 1) <= B * K * c <= (n * T * ma) * (c + 1) ->
  4 * (n * h) < c ->
  (B * K * J) / (T * P) = (n * h) / w \/
  ((B * K * J) / (T * P) = (n * h) / w - 1 /\ (n * h) mod w = 0).
Proof.
  intros Hc Hw Hh Hn HP HK HJ HT Hma HB HA [HC1 HC2] [HD1 HD2] Hsmall.
  set (Nn := B * K * J). set (Dd := T * P). set (X := n * h) in *.
  assert (HDd : 0 < Dd) by (unfold Dd; nia).
  (* the two-sided relative bound *)
  assert (Hup : Nn * w * (c * c) <= X * Dd * ((c + 1) * (c + 1))).
  { assert (E1 : Nn * w * (c * c) = (B * K * c) * (J * w * c))
      by (unfold Nn; ring).
    assert (E2 : (n * T * ma) * (c + 1) * (J * w * c)
                 = n * T * (c + 1) * (A * w * c)) by (rewrite HA; ring).
    assert (E3 : n * T * (c + 1) * (h * P * (c + 1))
                 = X * Dd * ((c + 1) * (c + 1))) by (unfold X, Dd; ring).
    rewrite E1, <- E3.
    apply Z.le_trans with ((n * T * ma) * (c + 1) * (J * w * c)).
    - apply Z.mul_le_mono_nonneg_r; [nia | exact HD2].
    - rewrite E2. apply Z.mul_le_mono_nonneg_l; [nia | exact HC2]. }
  assert (Hdn : X * Dd * ((c - 1) * (c - 1)) <= Nn * w * (c * c)).
  { assert (E1 : Nn * w * (c * c) = (B * K * c) * (J * w * c))
      by (unfold Nn; ring).
    assert (E2 : (n * T * ma) * (c - 1) * (J * w * c)
                 = n * T * (c - 1) * (A * w * c)) by (rewrite HA; ring).
    assert (E3 : n * T * (c - 1) * (h * P * (c - 1))
                 = X * Dd * ((c - 1) * (c - 1))) by (unfold X, Dd; ring).
    rewrite E1, <- E3.
    apply Z.le_trans with ((n * T * ma) * (c - 1) * (J * w * c)).
    - rewrite E2. apply Z.mul_le_mono_nonneg_l; [nia | exact HC1].
    - apply Z.mul_le_mono_nonneg_r; [nia | exact HD1]. }
  assert (HX : 0 <= X) by (unfold X; nia).
  pose proof (Z.div_mod X w ltac:(lia)) as Hdm.
  pose proof (Z.mod_pos_bound X w Hw) as Hmod.
  set (xq := X / w) in *. set (xr := X mod w) in *.
  clearbody Nn Dd X xq xr.
  clear HC1 HC2 HD1 HD2 HA.
  (* upper bound: Nn < (xq + 1) * Dd *)
  assert (Hlt : Nn < (xq + 1) * Dd).
  { apply Z.mul_lt_mono_pos_r with (p := w * (c * c)); [nia|].
    assert (X * Dd * ((c + 1) * (c + 1))
            < (xq + 1) * Dd * (w * (c * c))).
    { assert (E : X * Dd * ((c + 1) * (c + 1))
                  = X * Dd * (c * c) + Dd * (X * (2 * c + 1))) by ring.
      assert (S1 : X * (2 * c + 1) < c * c) by nia.
      assert (S2 : Dd * (X * (2 * c + 1)) < Dd * (c * c))
        by (apply Z.mul_lt_mono_pos_l; assumption).
      assert (S3 : X + 1 <= (xq + 1) * w) by lia.
      assert (S4 : (X + 1) * (Dd * (c * c)) <= (xq + 1) * w * (Dd * (c * c)))
        by (apply Z.mul_le_mono_nonneg_r; [nia | exact S3]).
      nia. }
    nia. }
  assert (Hge : (xr <> 0 -> xq * Dd <= Nn) /\ (xq - 1) * Dd <= Nn).
  { assert (S1 : X * (2 * c) <= c * c) by nia.
    assert (S0 : X * Dd * (c * c) - Dd * (X * (2 * c))
                 <= X * Dd * ((c - 1) * (c - 1))) by nia.
    assert (S2 : Dd * (X * (2 * c)) <= Dd * (c * c))
      by (apply Z.mul_le_mono_nonneg_l; [lia | exact S1]).
    split.
    - intros Hr. apply Z.mul_le_mono_pos_r with (p := w * (c * c)); [nia|].
      assert (S3 : xq * w + 1 <= X) by lia.
      assert (S4 : (xq * w + 1) * (Dd * (c * c)) <= X * (Dd * (c * c)))
        by (apply Z.mul_le_mono_nonneg_r; [nia | exact S3]).
      nia.
    - apply Z.mul_le_mono_pos_r with (p := w * (c * c)); [nia|].
      assert (S3 : xq * w <= X) by lia.
      assert (S4 : (xq * w) * (Dd * (c * c)) <= X * (Dd * (c * c)))
        by (apply Z.mul_le_mono_nonneg_r; [nia | exact S3]).
      assert (S5 : Dd * (c * c) <= w * (Dd * (c * c))) by nia.
      nia. }
  destruct Hge as [Hge1 Hge2].
  destruct (Z.eq_dec xr 0) as [Hz|Hnz].
  - destruct (Z_lt_le_dec Nn (xq * Dd)) as [Hl|Hl].
    + right. split; [|exact Hz].
      symmetry. apply Z.div_unique with (r := Nn - (xq - 1) * Dd); lia.
    + left. symmetry. apply Z.div_unique with (r := Nn - xq * Dd); lia.
  - left. specialize (Hge1 Hnz).
    symmetry. apply Z.div_unique with (r := Nn - xq * Dd); lia.
Qed.

Lemma to_int_div (mp : positive) (ep a b : Z) :
  0 <= a -> 0 <= b -> ep = a - b ->
  PyFloat.to_int (S754_finite false mp ep) = Ok (Zpos mp * 2 ^ a / 2 ^ b).
Proof.
  intros Ha Hb He. unfold PyFloat.to_int. f_equal.
  assert (Hpb : 0 < 2 ^ b) by (apply Z.pow_pos_nonneg; lia).
  destruct (0 <=? ep) eqn:E.
  - apply Z.leb_le in E.
    replace a with (ep + b) by lia.
    rewrite Z.pow_add_r, Z.mul_assoc by lia.
    rewrite Z.div_mul by lia. reflexivity.
  - apply Z.leb_gt in E.
    replace b with (- ep + a) by lia.
    rewrite Z.pow_add_r by lia.
    assert (Hpa : 0 < 2 ^ a) by (apply Z.pow_pos_nonneg; lia).
    rewrite Z.div_mul_cancel_r by lia. reflexivity.
Qed.

Lemma resize_dims_pos (pw ph pn : positive) :
  Zpos pn <= Zpos pw ->
  Zpos pw * Zpos ph < 2 ^ 50 ->
  exists nh,
    resize_dims (Zpos pw, Zpos ph) (Zpos pn) = Ok (Zpos pn, nh) /\
    (nh = Zpos pn * Zpos ph / Zpos pw \/
     (nh = Zpos pn * Zpos ph / Zpos pw - 1 /\
      (Zpos pn * Zpos ph) mod Zpos pw = 0)).
Proof.
  intros Hnw Harea.
  assert (Hw1 : Zpos pw * 1 <= Zpos pw * Zpos ph)
    by (apply Z.mul_le_mono_nonneg_l; lia).
  assert (Hh1 : 1 * Zpos ph <= Zpos pw * Zpos ph)
    by (apply Z.mul_le_mono_nonneg_r; lia).
  assert (Hnh : Zpos pn * Zpos ph <= Zpos pw * Zpos ph)
    by (apply Z.mul_le_mono_nonneg_r; lia).
  assert (H50 : 2 ^ 50 < 2 ^ 53) by reflexivity.
  assert (Hw : Zpos pw < 2 ^ 53) by lia.
  assert (Hh : Zpos ph < 2 ^ 53) by lia.
  assert (Hn : Zpos pn < 2 ^ 53) by lia.
  assert (Hsmall : 4 * (Zpos pn * Zpos ph) < 2 ^ 52).
  { change (2 ^ 52) with (4 * 2 ^ 50). lia. }
  destruct (true_div_spec ph pw Hh Hw)
    as (ma & ea & mtA & e1A & Hdiv & Hma & He1A & Hea & HmtA & HA & HbrA).
  destruct (int_mul_spec pn ma ea Hn Hma ltac:(lia))
    as (mp & ep & mtB & e1B & t & k & Hmul & Hmp & Hep & HmtB & HB & Ht & Hk
        & Hke & HbrB).
  set (EA := - e1A) in *. set (jA := ea - e1A) in *. set (jB := ep - e1B) in *.
  assert (HP : 0 < 2 ^ EA) by (apply Z.pow_pos_nonneg; unfold EA; lia).
  assert (HJ : 0 < 2 ^ jA) by (apply Z.pow_pos_nonneg; unfold jA; lia).
  assert (HK : 0 < 2 ^ k) by (apply Z.pow_pos_nonneg; lia).
  assert (HT : 0 < 2 ^ t) by (apply Z.pow_pos_nonneg; lia).
  assert (HjB : 0 < 2 ^ jB) by (apply Z.pow_pos_nonneg; unfold jB; lia).
  pose proof (within_ulp (2 ^ 52) mtA (Zpos ma * 2 ^ jA) (Zpos ph * 2 ^ EA)
                (Zpos pw) ltac:(lia) ltac:(lia) HmtA HA HbrA) as HC.
  pose proof (within_ulp (2 ^ 52) mtB (Zpos mp * 2 ^ jB)
                (Zpos pn * 2 ^ t * Zpos ma) (2 ^ k)
                HK ltac:(lia) HmtB HB HbrB) as HD.
  pose proof (floor_close (2 ^ 52) (Zpos pn) (Zpos ph) (Zpos pw)
                (Zpos ma * 2 ^ jA) (2 ^ EA) (Zpos mp * 2 ^ jB) (2 ^ k)
                (2 ^ jA) (2 ^ t) (Zpos ma)
                ltac:(lia) ltac:(lia) ltac:(lia) ltac:(lia) HP HK HJ HT
                ltac:(lia) ltac:(lia) eq_refl HC HD Hsmall) as Hfloor.
  assert (Hint : PyFloat.to_int (S754_finite false mp ep)
                 = Ok (Zpos mp * 2 ^ jB * 2 ^ k * 2 ^ jA / (2 ^ t * 2 ^ EA))).
  { rewrite (to_int_div mp ep (jB + k + jA) (t + EA));
      [| unfold jB, jA; lia | unfold EA; lia | unfold jB, jA, EA; lia].
    rewrite !Z.pow_add_r by (unfold jB, jA, EA; lia).
    f_equal. f_equal. ring. }
  eexists. split.
  - unfold resize_dims. cbn [fst snd]. rewrite Hdiv. cbn [result_bind].
    rewrite Z.min_l by lia. rewrite Hmul. cbn [result_bind].
    rewrite Hint. cbn [result_bind]. reflexivity.
  - exact Hfloor.
Qed.

Lemma resize_dims_min (size : Z * Z) (max_width : Z) :
  resize_dims size max_width
  = resize_dims size (Z.min max_width (fst size)).
Proof.
  unfold resize_dims.
  rewrite <- Z.min_assoc, Z.min_id. reflexivity.
Qed.

Lemma resize_dims_accuracy (w h max_width : Z) :
  1 <= w -> 1 <= h -> 1 <= max_width -> w * h < 2 ^ 50 ->
  exists new_height,
    resize_dims (w, h) max_width = Ok (Z.min max_width w, new_height) /\
    (new_height = Z.min max_width w * h / w \/
     (new_height = Z.min max_width w * h / w - 1 /\
      (Z.min max_width w * h) mod w = 0)).
Proof.
  intros Hw Hh Hmw Harea.
  rewrite resize_dims_min. cbn [fst].
  set (nw := Z.min max_width w).
  assert (Hnw : 1 <= nw <= w) by (unfold nw; lia).
  clearbody nw.
  destruct w as [|pw|pw]; try lia. destruct nw as [|pn|pn]; try lia.
  destruct h as [|ph|ph]; try lia.
  apply resize_dims_pos; lia.
Qed.

(** C1, as the code has it by design: the height is cut off, not rounded.
    For a decoded image of height at least 1 and fewer than 2^50 pixels
    and [max_width >= 1], whenever the exact new height
    [new_width * height / width], with
    [new_width = min(max_width, width)], is not a whole number, the image
    the resize operation encoded has that exact value truncated toward
    zero as its height. *)
Theorem resize_height_is_truncation {P : Pillow} {C : PillowContract P}
  (data : bytes) (max_width quality : Z) (fmt : string) (w w' : World)
  (out : bytes) (img : Image) :
  resize_in_memory data max_width quality fmt w = (Returns out, w') ->
  Image_open data = Ok img ->
  1 <= snd (Image_size img) ->
  1 <= max_width ->
  fst (Image_size img) * snd (Image_size img) < 2 ^ 50 ->
  (Z.min max_width (fst (Image_size img)) * snd (Image_size img))
    mod fst (Image_size img) <> 0 ->
  exists resized,
    Image_save resized fmt quality true = Ok out /\
    fst (Image_size resized) = Z.min max_width (fst (Image_size img)) /\
    snd (Image_size resized)
    = Z.quot (Z.min max_width (fst (Image_size img)) * snd (Image_size img))
        (fst (Image_size img)).
Proof.
  intros Hrun Hopen Hh Hmw Harea Hmod.
  apply resize_in_memory_returns in Hrun.
  destruct Hrun as (img' & flat & resized & nh
                    & Hopen' & _ & Hdims & _ & Hsize & Hsave).
  rewrite Hopen in Hopen'. inv Hopen'.
  pose proof (resize_dims_inv _ _ _ _ Hdims) as (_ & Hnz & _).
  destruct (size_nonneg img') as [Hw0 _].
  destruct (Image_size img') as [width height] eqn:Es.
  cbn [fst snd] in *.
  destruct (resize_dims_accuracy width height max_width
              ltac:(lia) Hh Hmw Harea) as (nh' & Hdims' & Hnh).
  rewrite Hdims in Hdims'. inv Hdims'.
  exists resized. rewrite Hsize. cbn [fst snd].
  split; [exact Hsave|]. split; [reflexivity|].
  rewrite Z.quot_div_nonneg by (try apply Z.mul_nonneg_nonneg; lia).
  destruct Hnh as [Hnh | [_ Hzero]]; [exact Hnh | contradiction].
Qed.

Lemma resize_height_is_truncation_witness :
  PillowContract HeaderImage.pillow /\
  resize_in_memory (P := HeaderImage.pillow) HeaderImage.rgb_8x7 2 85 "WEBP"
    empty_world
  = (Returns [Byte.x01; Byte.x00; Byte.x02; Byte.x00; Byte.x01],
     mkWorld [] [EvOpen HeaderImage.rgb_8x7; EvResize (2, 1) LANCZOS;
                 EvSave "WEBP" 85 true]) /\
  (Z.min 2 8 * 7) mod 8 <> 0 /\
  exists resized : HeaderImage.header,
    HeaderImage.h_save resized "WEBP" 85 true
      = Ok [Byte.x01; Byte.x00; Byte.x02; Byte.x00; Byte.x01] /\
    fst (HeaderImage.h_size resized) = Z.min 2 8 /\
    snd (HeaderImage.h_size resized) = Z.quot (Z.min 2 8 * 7) 8.
Proof.
  split; [exact header_contract|]. split; [reflexivity|].
  split; [discriminate|].
  apply (resize_height_is_truncation (P := HeaderImage.pillow)
           (C := header_contract)
           HeaderImage.rgb_8x7 2 85 "WEBP" empty_world
           (mkWorld [] [EvOpen HeaderImage.rgb_8x7; EvResize (2, 1) LANCZOS;
                        EvSave "WEBP" 85 true])
           [Byte.x01; Byte.x00; Byte.x02; Byte.x00; Byte.x01]
           (HeaderImage.mkHeader "RGB" 8 7));
    try reflexivity; cbn; try lia; discriminate.
Defined.

(** X9: for every image of at least 1 x 1 and fewer than 2^50 pixels and
    every [max_width >= 1], the dimension arithmetic succeeds and the new
    height is the exact quotient [new_width * height / width] rounded
    down, or one less than that; it is one less only when the exact
    quotient is a whole number. *)
Theorem resize_height_within_one_row (w h max_width : Z) :
  1 <= w -> 1 <= h -> 1 <= max_width -> w * h < 2 ^ 50 ->
  exists new_height,
    resize_dims (w, h) max_width = Ok (Z.min max_width w, new_height) /\
    (new_height = Z.min max_width w * h / w \/
     (new_height = Z.min max_width w * h / w - 1 /\
      (Z.min max_width w * h) mod w = 0)).
Proof. apply resize_dims_accuracy. Qed.

Lemma resize_height_within_one_row_witness :
  1 <= 600 /\ 1 <= 414 /\ 1 <= 800 /\ 600 * 414 < 2 ^ 50 /\
  exists new_height,
    resize_dims (600, 414) 800 = Ok (Z.min 800 600, new_height) /\
    (new_height = Z.min 800 600 * 414 / 600 \/
     (new_height = Z.min 800 600 * 414 / 600 - 1 /\
      (Z.min 800 600 * 414) mod 600 = 0)).
Proof.
  split; [lia|]. split; [lia|]. split; [lia|]. split; [reflexivity|].
  apply (resize_height_within_one_row 600 414 800);
    [lia | lia | lia | reflexivity].
Defined.

(** X10: for every image of fewer than 2^50 pixels that is no wider than
    [max_width], the new width is the image's width and the new height is
    the image's height or one row less, never more. *)
Theorem resize_same_width_height (w h max_width : Z) :
  1 <= w -> 1 <= h -> w <= max_width -> w * h < 2 ^ 50 ->
  resize_dims (w, h) max_width = Ok (w, h) \/
  resize_dims (w, h) max_width = Ok (w, h - 1).
Proof.
  intros Hw Hh Hmw Harea.
  destruct (resize_dims_accuracy w h max_width Hw Hh ltac:(lia) Harea)
    as (nh & Hrun & Hnh).
  rewrite Z.min_r in Hrun, Hnh by lia.
  rewrite Hrun. rewrite Z.mul_comm, Z.div_mul in Hnh by lia.
  destruct Hnh as [-> | [-> _]]; auto.
Qed.

Lemma resize_same_width_height_witness :
  1 <= 600 /\ 1 <= 414 /\ 600 <= 800 /\ 600 * 414 < 2 ^ 50 /\
  (resize_dims (600, 414) 800 = Ok (600, 414) \/
   resize_dims (600, 414) 800 = Ok (600, 414 - 1)).
Proof.
  split; [lia|]. split; [lia|]. split; [lia|]. split; [reflexivity|].
  apply (resize_same_width_height 600 414 800);
    [lia | lia | lia | reflexivity].
Defined.

(** X11: an image so wide that the exact new height
    [new_width * height / width] is below one row gets the new height 0;
    Pillow refuses that size, so [/resize] answers 400 for such an
    upload. *)
Theorem resize_flat_image_rejected {P : Pillow} {C : PillowContract P}
  (file : UploadFile) (max_width quality : Z) (w : World) (img : Image) :
  not_an_image file = false ->
  Image_open (body file) = Ok img ->
  1 <= snd (Image_size img) ->
  1 <= max_width ->
  fst (Image_size img) * snd (Image_size img) < 2 ^ 50 ->
  Z.min max_width (fst (Image_size img)) * snd (Image_size img)
    < fst (Image_size img) ->
  resize_dims (Image_size img) max_width
    = Ok (Z.min max_width (fst (Image_size img)), 0) /\
  exists msg w',
    resize_image file max_width quality w
      = (Raises (mkHTTPException 400 msg), w').
Proof.
  intros Hct Hopen Hh Hmw Harea Hflat.
  destruct (size_nonneg img) as [Hw0 _].
  destruct (Image_size img) as [width height] eqn:Es. cbn [fst snd] in *.
  assert (Hw : 1 <= width).
  { destruct (Z.eq_dec width 0) as [->|]; [|lia].
    rewrite Z.min_r in Hflat by lia. lia. }
  destruct (resize_dims_accuracy width height max_width Hw Hh Hmw Harea)
    as (nh & Hdims & Hnh).
  assert (Hq : Z.min max_width width * height / width = 0).
  { apply Z.div_small. split; [|exact Hflat].
    apply Z.mul_nonneg_nonneg; lia. }
  rewrite Hq in Hnh.
  assert (Hnh0 : nh = 0).
  { destruct Hnh as [->|[_ Hmod]]; [reflexivity|].
    rewrite Z.mod_small in Hmod
      by (split; [apply Z.mul_nonneg_nonneg; lia | exact Hflat]).
    assert (0 < Z.min max_width width * height)
      by (apply Z.mul_pos_pos; lia).
    lia. }
  subst nh. split; [exact Hdims|].
  unfold resize_image. rewrite Hct.
  unfold read, bind, emit, ret. cbn.
  destruct (resize_in_memory (body file) max_width quality
              default_output_format _) as [[out|e] w'] eqn:Hrun.
  - exfalso. apply resize_in_memory_returns in Hrun.
    destruct Hrun as (img' & flat & resized & nh
                      & Hopen' & Hfs & Hdims' & Hres & _ & _).
    rewrite Hopen in Hopen'. inv Hopen'.
    rewrite Es in Hdims', Hfs. cbn [fst] in Hdims', Hres.
    rewrite Hdims in Hdims'. inv Hdims'.
    destruct (resize_size _ _ _ _ Hres) as [_ [[_ H1] | Heq]].
    + cbn [snd] in H1. lia.
    + rewrite Hfs in Heq. inv Heq. lia.
  - apply resize_in_memory_trace in Hrun. destruct Hrun as [_ [Hs _]].
    destruct e as [sc d]. cbn in Hs. subst sc. exists d, w'. reflexivity.
Qed.

Lemma resize_flat_image_rejected_witness :
  PillowContract HeaderImage.pillow /\
  resize_dims (1000, 1) 800 = Ok (Z.min 800 1000, 0) /\
  exists msg w',
    resize_image (P := HeaderImage.pillow)
      (HeaderImage.png [Byte.x01; Byte.x03; Byte.xe8; Byte.x00; Byte.x01])
      800 85 empty_world
    = (Raises (mkHTTPException 400 msg), w').
Proof.
  split; [exact header_contract|].
  apply (resize_flat_image_rejected (P := HeaderImage.pillow)
           (C := header_contract)
           (HeaderImage.png [Byte.x01; Byte.x03; Byte.xe8; Byte.x00; Byte.x01])
           800 85 empty_world (HeaderImage.mkHeader "RGB" 1000 1));
    try reflexivity; cbn; lia.
Defined.

(** ** Square images and the centre crop *)

Lemma crop_square_run {P : Pillow} {C : PillowContract P}
  (file : UploadFile) (quality : Z) (w w' : World) (r : option Response) :
  crop_square file quality w = (Returns r, w') ->
  exists img flat cropped output,
    Image_open (body file) = Ok img /\
    Image_crop flat (int_box (square_box (Image_size img))) = Ok cropped /\
    Image_save cropped "WEBP" quality true = Ok output /\
    r = Some (mkResponse output "image/webp").
Proof.
  intros H. apply crop_square_returns_inv in H.
  destruct H as (img & flat & w1 & cropped & output
                 & Hopen & Hflat & Hcrop & Hsave & Hr).
  destruct (flatten_alpha_returns img
              (mkWorld (log w) (calls w ++ [EvRead; EvOpen (body file)]))
              _ _ Hflat)
    as (flat' & Hflat' & Hsize & _).
  rewrite Hflat in Hflat'. inv Hflat'.
  rewrite Hsize in Hcrop.
  exists img, flat', cropped, output. repeat split; assumption.
Qed.

(** X12: when [/crop-square] answers for an image that is already square,
    the box it cropped is the whole image, (0, 0, side, side), and the
    image it encoded has the size of the decoded one. *)
Theorem crop_square_keeps_square_image {P : Pillow} {C : PillowContract P}
  (file : UploadFile) (quality : Z) (w w' : World) (r : option Response)
  (img : Image) :
  crop_square file quality w = (Returns r, w') ->
  Image_open (body file) = Ok img ->
  fst (Image_size img) = snd (Image_size img) ->
  exists flat cropped output,
    Image_crop flat
      (PyInt 0, PyInt 0, PyInt (fst (Image_size img)),
       PyInt (fst (Image_size img))) = Ok cropped /\
    Image_size cropped = Image_size img /\
    Image_save cropped "WEBP" quality true = Ok output /\
    r = Some (mkResponse output "image/webp").
Proof.
  intros Hrun Hopen Hsq.
  apply crop_square_run in Hrun.
  destruct Hrun as (img' & flat & cropped & output
                    & Hopen' & Hcrop & Hsave & Hr).
  rewrite Hopen in Hopen'. inv Hopen'.
  destruct (Image_size img') as [side height] eqn:Es.
  cbn [fst snd] in *. subst height.
  unfold square_box in Hcrop. cbn [fst snd int_box] in Hcrop.
  rewrite Z.min_id, Z.sub_diag in Hcrop.
  change (0 / 2) with 0 in Hcrop. rewrite Z.add_0_l in Hcrop.
  pose proof (crop_size _ _ _ _ _ _ Hcrop) as Hcs.
  rewrite Z.sub_0_r in Hcs.
  exists flat, cropped, output. repeat split; assumption.
Qed.

Lemma crop_square_keeps_square_image_witness :
  PillowContract HeaderImage.pillow /\
  exists flat cropped : HeaderImage.header,
    HeaderImage.h_crop flat (PyInt 0, PyInt 0, PyInt 300, PyInt 300)
      = Ok cropped /\
    HeaderImage.h_size cropped = (300, 300).
Proof.
  split; [exact header_contract|].
  destruct (crop_square_keeps_square_image (P := HeaderImage.pillow)
              (C := header_contract)
              (HeaderImage.png
                 [Byte.x01; Byte.x01; Byte.x2c; Byte.x01; Byte.x2c])
              85 empty_world
              (mkWorld []
                 [EvRead;
                  EvOpen [Byte.x01; Byte.x01; Byte.x2c; Byte.x01; Byte.x2c];
                  EvCrop (PyInt 0, PyInt 0, PyInt 300, PyInt 300);
                  EvSave "WEBP" 85 true])
              (Some (mkResponse
                       [Byte.x01; Byte.x01; Byte.x2c; Byte.x01; Byte.x2c]
                       "image/webp"))
              (HeaderImage.mkHeader "RGB" 300 300)
              ltac:(vm_compute; reflexivity) eq_refl eq_refl)
    as (flat & cropped & output & Hcrop & Hsize & _).
  exists flat, cropped. split; [exact Hcrop | exact Hsize].
Defined.

(** ** A [/resize] response, end to end *)

(** X13: when [/resize] answers, the upload was read once and its body
    decoded, the flattened image was resized once with LANCZOS to a width
    of [min(max_width, original width)], and the response's content is
    exactly what the encoder returned for the resized image, as WEBP at
    the request's quality with [optimize=True]; nothing was logged. *)
Theorem resize_image_response {P : Pillow} {C : PillowContract P}
  (file : UploadFile) (max_width quality : Z) (w w' : World)
  (r : option Response) :
  resize_image file max_width quality w = (Returns r, w') ->
  exists img resized output evs,
    Image_open (body file) = Ok img /\
    fst (Image_size resized) = Z.min max_width (fst (Image_size img)) /\
    Image_save resized "WEBP" quality true = Ok output /\
    r = Some (mkResponse output "image/webp") /\
    calls w' = calls w ++ evs /\
    outer_calls evs
    = [EvRead; EvOpen (body file); EvResize (Image_size resized) LANCZOS;
       EvSave "WEBP" quality true] /\
    log w' = log w.
Proof.
  unfold resize_image. destruct (not_an_image file).
  { unfold raise. intros H; inv H. }
  unfold read, bind, emit, ret. cbn.
  destruct (resize_in_memory (body file) max_width quality
              default_output_format _) as [[out|e] w1] eqn:Hrun;
    intros H; inv H.
  apply resize_in_memory_returns_inv in Hrun.
  destruct Hrun as (img & flat & w2 & [nw nh] & resized
                    & Hopen & Hflat & Hdims & Hres & Hsave & Hw').
  cbn [log calls] in Hflat.
  destruct (flatten_alpha_returns img
              (mkWorld (log w)
                 ((calls w ++ [EvRead]) ++ [EvOpen (body file)]))
              _ _ Hflat)
    as (flat2 & Hflat2 & Hfs & _).
  rewrite Hflat in Hflat2. inv Hflat2.
  rewrite Hfs in Hdims.
  pose proof (resize_dims_inv _ _ _ _ Hdims) as (Hnw & _).
  destruct (resize_size _ _ _ _ Hres) as [Hrs _].
  assert (Hevs : outer_calls (flatten_events img) = []).
  { unfold flatten_events.
    destruct (mode_in (Image_mode img) ["RGBA"; "LA"]); reflexivity. }
  exists img, resized, out,
    ([EvRead; EvOpen (body file)] ++ flatten_events img
     ++ [EvResize (nw, nh) LANCZOS; EvSave "WEBP" quality true]).
  repeat split.
  - exact Hopen.
  - rewrite Hrs. exact Hnw.
  - exact Hsave.
  - cbn [calls]. rewrite <- !app_assoc. reflexivity.
  - rewrite !outer_calls_app, Hevs, Hrs. reflexivity.
Qed.

Lemma resize_image_response_witness :
  PillowContract HeaderImage.pillow /\
  exists (img resized : HeaderImage.header) output,
    HeaderImage.h_open (body (HeaderImage.png HeaderImage.rgba_500x300))
      = Ok img /\
    fst (HeaderImage.h_size resized)
      = Z.min 250 (fst (HeaderImage.h_size img)) /\
    HeaderImage.h_save resized "WEBP" 70 true = Ok output /\
    Some (mkResponse [Byte.x01; Byte.x00; Byte.xfa; Byte.x00; Byte.x96]
            "image/webp")
    = Some (mkResponse output "image/webp").
Proof.
  split; [exact header_contract|].
  destruct (resize_image_response (P := HeaderImage.pillow)
              (C := header_contract)
              (HeaderImage.png HeaderImage.rgba_500x300) 250 70 empty_world
              (mkWorld []
                 [EvRead; EvOpen HeaderImage.rgba_500x300;
                  EvNew "RGB" (500, 300) (255, 255, 255); EvGetchannel "A";
                  EvPaste; EvResize (250, 150) LANCZOS;
                  EvSave "WEBP" 70 true])
              (Some (mkResponse
                       [Byte.x01; Byte.x00; Byte.xfa; Byte.x00; Byte.x96]
                       "image/webp"))
              ltac:(vm_compute; reflexivity))
    as (img & resized & output & evs & Hopen & Hw & Hsave & Hr & _).
  exists img, resized, output. repeat split; assumption.
Defined.
